(** * mu_log: a minimal leveled logger, embedded from [mu_log.h] / [mu_log.c].

    The development follows the C sources function by function.

    - Values of [mu_log_level_t] and of [int] are integers ([Z]).
    - The file-static [s_logger], the history of calls made to the C
      stream functions ([fputs], [printf], [vprintf]) and the state owned
      by the embedding program are threaded explicitly through a small
      state monad whose second outcome, [Undefined], stands for C
      undefined behaviour (a call through a null function pointer, a
      signed overflow, an out-of-bounds array read).
    - The two build modes selected by [MU_LOG_ENABLE] and
      [MU_LOG_ENABLE_FORMATTED] are the modules [Simple] and
      [Formatted]. *)

From Stdlib Require Import ZArith List String Ascii Bool Lia.
Import ListNotations.

Local Open Scope string_scope.
Local Open Scope list_scope.
Local Open Scope Z_scope.

(* ********************************************************************** *)
(** ** C data: integers, levels and their names *)

(** [int] is 32 bits wide; [size_t] is 64 bits wide (LP64). *)
Definition INT_MIN : Z := - 2 ^ 31.
Definition INT_MAX : Z := 2 ^ 31 - 1.
Definition SIZE_MAX : Z := 2 ^ 64 - 1.

(** [mu_log_level_t] is an [enum] without negative enumerators: the
    compiler represents it either as [int] or as [unsigned int].  A value
    of that type is therefore an integer in the union of both ranges. *)
Definition mu_log_level_t : Type := Z.

Definition in_level_range (v : mu_log_level_t) : Prop :=
  INT_MIN <= v <= 2 ^ 32 - 1.

(** The enumerators generated by [MU_LOG_LEVELS(EXPAND_LOG_LEVEL_ENUM)]. *)
Definition MU_LOG_LEVEL_TRACE : mu_log_level_t := 0.
Definition MU_LOG_LEVEL_DEBUG : mu_log_level_t := 1.
Definition MU_LOG_LEVEL_INFO  : mu_log_level_t := 2.
Definition MU_LOG_LEVEL_WARN  : mu_log_level_t := 3.
Definition MU_LOG_LEVEL_ERROR : mu_log_level_t := 4.
Definition MU_LOG_LEVEL_FATAL : mu_log_level_t := 5.

Definition MU_LOG_DEFAULT_LEVEL : mu_log_level_t := MU_LOG_LEVEL_INFO.

(** The six defined levels. *)
Definition defined_levels : list mu_log_level_t :=
  [MU_LOG_LEVEL_TRACE; MU_LOG_LEVEL_DEBUG; MU_LOG_LEVEL_INFO;
   MU_LOG_LEVEL_WARN; MU_LOG_LEVEL_ERROR; MU_LOG_LEVEL_FATAL].

Definition is_defined_level (v : mu_log_level_t) : Prop := In v defined_levels.

(** [s_level_names[]], generated by [MU_LOG_LEVELS(EXPAND_LEVEL_NAMES)]. *)
Definition s_level_names : list string :=
  ["TRACE"; "DEBUG"; "INFO"; "WARN"; "ERROR"; "FATAL"].

(** [sizeof(s_level_names)/sizeof(s_level_names[0])], of type [size_t]. *)
Definition N_LOG_LEVELS : Z := Z.of_nat (List.length s_level_names).

(** Conversion of an integer value to [size_t] (the usual arithmetic
    conversion applied to [level] in [level < N_LOG_LEVELS]). *)
Definition to_size_t (v : Z) : Z := v mod (SIZE_MAX + 1).

(** Outcome of running a piece of C code. *)
Inductive result (A : Type) : Type :=
| Ok (a : A)
| Undefined.
Arguments Ok {A} a.
Arguments Undefined {A}.

(** Reading [a[i]]: undefined outside the array. *)
Definition array_read {A : Type} (a : list A) (i : Z) : result A :=
  if (0 <=? i) && (i <? Z.of_nat (List.length a))
  then match nth_error a (Z.to_nat i) with
       | Some x => Ok x
       | None => Undefined
       end
  else Undefined.

(** [const char *mu_log_level_name(mu_log_level_t level)] *)
Definition mu_log_level_name (level : mu_log_level_t) : result string :=
  if to_size_t level <? N_LOG_LEVELS
  then array_read s_level_names level
  else Ok "UNKNOWN".

(** Signed [int] addition: overflow is undefined. *)
Definition int_add (a b : Z) : result Z :=
  if (INT_MIN <=? a + b) && (a + b <=? INT_MAX) then Ok (a + b) else Undefined.

(* ********************************************************************** *)
(** ** The logger state *)

(** Addresses that can be stored in a [mu_log_fn] function pointer: the
    library's own [mu_log_stdout_fn], or a function of the embedding
    program (such as the test suite's [test_log_fn]). *)
Inductive fn_addr : Type :=
| addr_mu_log_stdout_fn
| addr_user_fn (n : nat).

(** [mu_log_fn]: a possibly null function pointer. *)
Definition mu_log_fn : Type := option fn_addr.
Definition NULL : mu_log_fn := None.

(** [p == NULL] *)
Definition is_null (p : mu_log_fn) : bool :=
  match p with
  | None => true
  | Some _ => false
  end.

(** [mu_log_t] *)
Record mu_log_t : Type := {
  log_fn : mu_log_fn;
  threshold : mu_log_level_t
}.

(** The initialiser of the file-static [s_logger]. *)
Definition s_logger_init : mu_log_t :=
  {| log_fn := NULL; threshold := MU_LOG_DEFAULT_LEVEL |}.

(** Arguments of a variadic call, and [va_list]. *)
Inductive c_value : Type :=
| Vint (n : Z)
| Vstr (s : string).

Definition va_list : Type := list c_value.

(** The calls the library makes to the C stream functions; the stream is
    always [stdout]. *)
Inductive stdio_call : Type :=
| Fputs (s : string)
| Printf (format : string) (args : list c_value)
| Vprintf (format : string) (ap : va_list).

(** A history of stream calls, oldest first, each with the [int] it
    returned. *)
Definition stdio_log : Type := list (stdio_call * Z).

Definition newline : string := String (ascii_of_nat 10) EmptyString.

Section World.

(** State owned by the embedding program (for the test suite: the call
    counter of its fake print function). *)
Variable U : Type.

Record world : Type := {
  s_logger : mu_log_t;
  stdout_calls : stdio_log;
  app_state : U
}.

(** Code runs in a world and ends in a world, with a value or with
    undefined behaviour. *)
Definition M (A : Type) : Type := world -> result A * world.

Definition ret {A : Type} (a : A) : M A := fun w => (Ok a, w).

Definition bind {A B : Type} (m : M A) (k : A -> M B) : M B :=
  fun w => match m w with
           | (Ok a, w') => k a w'
           | (Undefined, w') => (Undefined, w')
           end.

Definition undefined {A : Type} : M A := fun w => (Undefined, w).

Definition lift {A : Type} (r : result A) : M A := fun w => (r, w).

Definition get_logger : M mu_log_t := fun w => (Ok (s_logger w), w).

Definition put_logger (l : mu_log_t) : M unit :=
  fun w => (Ok tt, {| s_logger := l;
                      stdout_calls := stdout_calls w;
                      app_state := app_state w |}).

(** What the stream answers to a call, given the calls made so far. *)
Variable stdio_ret : stdio_log -> stdio_call -> Z.

(** The world after the stream call [c] returned [n]. *)
Definition record_call (w : world) (c : stdio_call) (n : Z) : world :=
  {| s_logger := s_logger w;
     stdout_calls := stdout_calls w ++ [(c, n)];
     app_state := app_state w |}.

Definition stdio (c : stdio_call) : M Z :=
  fun w => let n := stdio_ret (stdout_calls w) c in (Ok n, record_call w c n).

Definition fputs (s : string) : M Z := stdio (Fputs s).
Definition printf (format : string) (args : list c_value) : M Z :=
  stdio (Printf format args).
Definition vprintf (format : string) (ap : va_list) : M Z :=
  stdio (Vprintf format ap).

Local Notation "x <- m ;; k" := (bind m (fun x => k))
  (at level 61, m at next level, right associativity).

(** [void mu_log_set_fn(mu_log_fn fn)] *)
Definition mu_log_set_fn (fn : mu_log_fn) : M unit :=
  l <- get_logger ;;
  put_logger {| log_fn := fn; threshold := threshold l |}.

(** [mu_log_fn mu_log_get_fn(void)] *)
Definition mu_log_get_fn : M mu_log_fn :=
  l <- get_logger ;;
  ret (log_fn l).

(** [void mu_log_set_threshold(mu_log_level_t threshold)] *)
Definition mu_log_set_threshold (t : mu_log_level_t) : M unit :=
  l <- get_logger ;;
  put_logger {| log_fn := log_fn l; threshold := t |}.

(** [mu_log_level_t mu_log_get_threshold(void)] *)
Definition mu_log_get_threshold : M mu_log_level_t :=
  l <- get_logger ;;
  ret (threshold l).

(** [bool mu_log_will_log(mu_log_level_t level)] *)
Definition mu_log_will_log (level : mu_log_level_t) : M bool :=
  l <- get_logger ;;
  ret (negb (is_null (log_fn l)) && (level >=? threshold l)).

End World.

Arguments s_logger {U} w.
Arguments stdout_calls {U} w.
Arguments app_state {U} w.
Arguments ret {U A} a.
Arguments bind {U A B} m k.
Arguments undefined {U A}.
Arguments lift {U A} r.
Arguments get_logger {U}.
Arguments put_logger {U} l.
Arguments mu_log_set_fn {U} fn.
Arguments mu_log_get_fn {U}.
Arguments mu_log_set_threshold {U} t.
Arguments mu_log_get_threshold {U}.
Arguments mu_log_will_log {U} level.
Arguments record_call {U} w c n.
Arguments stdio {U} stdio_ret c.
Arguments fputs {U} stdio_ret s.
Arguments printf {U} stdio_ret format args.
Arguments vprintf {U} stdio_ret format ap.

Declare Scope mu_scope.
Notation "x <- m ;; k" := (bind m (fun x => k))
  (at level 61, m at next level, right associativity) : mu_scope.
Open Scope mu_scope.

(* ********************************************************************** *)
(** ** Simple mode ([MU_LOG_ENABLE]): the message is a rendered string *)

Module Simple.

(** One call of the embedding program into the public interface. *)
Inductive op : Type :=
| op_set_fn (fn : mu_log_fn)
| op_get_fn
| op_set_threshold (t : mu_log_level_t)
| op_get_threshold
| op_will_log (level : mu_log_level_t)
| op_level_name (level : mu_log_level_t)
| op_log (level : mu_log_level_t) (message : string)
| op_stdout_fn (level : mu_log_level_t) (message : string).

Section Code.

Variable U : Type.
Variable stdio_ret : stdio_log -> stdio_call -> Z.

(** The bodies of the embedding program's functions that take a level
    and a message and return an [int]. *)
Variable user_fn : nat -> mu_log_level_t -> string -> M U Z.

(** [int mu_log_stdout_fn(mu_log_level_t level, const char *message)] *)
Definition mu_log_stdout_fn (level : mu_log_level_t) (message : string)
  : M U Z :=
  b <- mu_log_will_log level ;;
  if negb b then ret 0 else
  name <- lift (mu_log_level_name level) ;;
  n <- fputs stdio_ret name ;;
  if n <? 0 then ret n else
  n <- fputs stdio_ret ": " ;;
  if n <? 0 then ret n else
  n <- fputs stdio_ret message ;;
  if n <? 0 then ret n else
  n <- fputs stdio_ret newline ;;
  if n <? 0 then ret n else
  ret n.

(** The call [fn(level, message)] through a non-null [mu_log_fn]. *)
Definition call_fn (f : fn_addr) (level : mu_log_level_t)
  (message : string) : M U Z :=
  match f with
  | addr_mu_log_stdout_fn => mu_log_stdout_fn level message
  | addr_user_fn n => user_fn n level message
  end.

(** [void mu_log(mu_log_level_t level, const char *message)]:
    [s_logger.log_fn(level, message);] with no test of the pointer. *)
Definition mu_log (level : mu_log_level_t) (message : string) : M U unit :=
  l <- get_logger ;;
  match log_fn l with
  | None => undefined
  | Some f => _ <- call_fn f level message ;; ret tt
  end.

Definition exec_op (o : op) : M U unit :=
  match o with
  | op_set_fn fn => mu_log_set_fn fn
  | op_get_fn => _ <- mu_log_get_fn ;; ret tt
  | op_set_threshold t => mu_log_set_threshold t
  | op_get_threshold => _ <- mu_log_get_threshold ;; ret tt
  | op_will_log level => _ <- mu_log_will_log level ;; ret tt
  | op_level_name level => _ <- lift (mu_log_level_name level) ;; ret tt
  | op_log level message => mu_log level message
  | op_stdout_fn level message =>
      _ <- mu_log_stdout_fn level message ;; ret tt
  end.

Fixpoint run_ops (ops : list op) : M U unit :=
  match ops with
  | [] => ret tt
  | o :: rest => _ <- exec_op o ;; run_ops rest
  end.

End Code.

Arguments mu_log_stdout_fn {U} stdio_ret level message.
Arguments call_fn {U} stdio_ret user_fn f level message.
Arguments mu_log {U} stdio_ret user_fn level message.
Arguments exec_op {U} stdio_ret user_fn o.
Arguments run_ops {U} stdio_ret user_fn ops.

End Simple.

(* ********************************************************************** *)
(** ** Formatted mode ([MU_LOG_ENABLE_FORMATTED]): a format and its
       arguments *)

Module Formatted.

Inductive op : Type :=
| op_set_fn (fn : mu_log_fn)
| op_get_fn
| op_set_threshold (t : mu_log_level_t)
| op_get_threshold
| op_will_log (level : mu_log_level_t)
| op_level_name (level : mu_log_level_t)
| op_log (level : mu_log_level_t) (format : string) (args : list c_value)
| op_stdout_fn (level : mu_log_level_t) (format : string) (ap : va_list).

Section Code.

Variable U : Type.
Variable stdio_ret : stdio_log -> stdio_call -> Z.

(** The bodies of the embedding program's functions that take a level,
    a format and a [va_list] and return an [int]. *)
Variable user_fn : nat -> mu_log_level_t -> string -> va_list -> M U Z.

(** [int mu_log_stdout_fn(mu_log_level_t level, const char *format,
    va_list ap)] *)
Definition mu_log_stdout_fn (level : mu_log_level_t) (format : string)
  (ap : va_list) : M U Z :=
  b <- mu_log_will_log level ;;
  if negb b then ret 0 else
  name <- lift (mu_log_level_name level) ;;
  n1 <- printf stdio_ret "%5s: " [Vstr name] ;;
  if n1 <? 0 then ret n1 else
  n2 <- vprintf stdio_ret format ap ;;
  if n2 <? 0 then ret n2 else
  n3 <- printf stdio_ret newline [] ;;
  if n3 <? 0 then ret n3 else
  n12 <- lift (int_add n1 n2) ;;
  lift (int_add n12 n3).

(** The call [fn(level, format, ap)] through a non-null [mu_log_fn]. *)
Definition call_fn (f : fn_addr) (level : mu_log_level_t)
  (format : string) (ap : va_list) : M U Z :=
  match f with
  | addr_mu_log_stdout_fn => mu_log_stdout_fn level format ap
  | addr_user_fn n => user_fn n level format ap
  end.

(** [void mu_log(mu_log_level_t level, const char *format, ...)]:
    [ap] holds the variadic arguments; the pointer is not tested. *)
Definition mu_log (level : mu_log_level_t) (format : string)
  (args : list c_value) : M U unit :=
  let ap : va_list := args in
  l <- get_logger ;;
  match log_fn l with
  | None => undefined
  | Some f => _ <- call_fn f level format ap ;; ret tt
  end.

Definition exec_op (o : op) : M U unit :=
  match o with
  | op_set_fn fn => mu_log_set_fn fn
  | op_get_fn => _ <- mu_log_get_fn ;; ret tt
  | op_set_threshold t => mu_log_set_threshold t
  | op_get_threshold => _ <- mu_log_get_threshold ;; ret tt
  | op_will_log level => _ <- mu_log_will_log level ;; ret tt
  | op_level_name level => _ <- lift (mu_log_level_name level) ;; ret tt
  | op_log level format args => mu_log level format args
  | op_stdout_fn level format ap =>
      _ <- mu_log_stdout_fn level format ap ;; ret tt
  end.

Fixpoint run_ops (ops : list op) : M U unit :=
  match ops with
  | [] => ret tt
  | o :: rest => _ <- exec_op o ;; run_ops rest
  end.

End Code.

Arguments mu_log_stdout_fn {U} stdio_ret level format ap.
Arguments call_fn {U} stdio_ret user_fn f level format ap.
Arguments mu_log {U} stdio_ret user_fn level format args.
Arguments exec_op {U} stdio_ret user_fn o.
Arguments run_ops {U} stdio_ret user_fn ops.

End Formatted.

(* ********************************************************************** *)
(** ** Process start, and the doubles of the test suite *)

(** The world at process start: [s_logger] holds its initialiser and
    nothing has been written. *)
Definition world_init {U : Type} (u : U) : world U :=
  {| s_logger := s_logger_init; stdout_calls := []; app_state := u |}.

(** The test suite replaces the stream functions by fakes that record
    their calls and return 0. *)
Definition stdio_fake : stdio_log -> stdio_call -> Z := fun _ _ => 0.

(** A stream whose [fputs] reports the number of characters written. *)
Definition stdio_chars : stdio_log -> stdio_call -> Z :=
  fun _ c => match c with
             | Fputs s => Z.of_nat (String.length s)
             | _ => 0
             end.

(** A stream whose call number [k] (counting from 0) fails with [err];
    the calls before and after behave as [stdio_fake]. *)
Definition stdio_fail_at (k : nat) (err : Z) : stdio_log -> stdio_call -> Z :=
  fun h _ => if Nat.eqb (List.length h) k then err else 0.

Module SimpleTest.

(** [mock_print_fn]: a fake that counts its calls and returns 0; the
    program state is its [call_count]. *)
Definition mock_print_fn (message : string) : M nat Z :=
  fun w => (Ok 0, {| s_logger := s_logger w;
                     stdout_calls := stdout_calls w;
                     app_state := S (app_state w) |}).

(** [test_log_fn], the trampoline that honours [mu_log_will_log]. *)
Definition test_log_fn (level : mu_log_level_t) (message : string)
  : M nat Z :=
  b <- mu_log_will_log level ;;
  if b then mock_print_fn message else ret 0.

Definition user_fn (n : nat) : mu_log_level_t -> string -> M nat Z :=
  test_log_fn.

Definition addr_test_log_fn : fn_addr := addr_user_fn 0.

(** The world after [setUp]. *)
Definition world_setUp : world nat :=
  {| s_logger := {| log_fn := Some addr_test_log_fn;
                    threshold := MU_LOG_LEVEL_INFO |};
     stdout_calls := [];
     app_state := 0%nat |}.

End SimpleTest.

Module FormattedTest.

Definition mock_print_fn (format : string) (ap : va_list) : M nat Z :=
  fun w => (Ok 0, {| s_logger := s_logger w;
                     stdout_calls := stdout_calls w;
                     app_state := S (app_state w) |}).

Definition test_log_fn (level : mu_log_level_t) (format : string)
  (ap : va_list) : M nat Z :=
  b <- mu_log_will_log level ;;
  if b then mock_print_fn format ap else ret 0.

Definition user_fn (n : nat)
  : mu_log_level_t -> string -> va_list -> M nat Z :=
  test_log_fn.

Definition addr_test_log_fn : fn_addr := addr_user_fn 0.

Definition world_setUp : world nat :=
  {| s_logger := {| log_fn := Some addr_test_log_fn;
                    threshold := MU_LOG_LEVEL_INFO |};
     stdout_calls := [];
     app_state := 0%nat |}.

End FormattedTest.

(* ********************************************************************** *)
(** ** Vocabulary of the statements *)

(** The value a [void] caller keeps of a call: only whether it was
    defined. *)
Definition discard {A : Type} (r : result A) : result unit :=
  match r with
  | Ok _ => Ok tt
  | Undefined => Undefined
  end.

(** The stream calls [Simple.mu_log_stdout_fn] makes when nothing fails. *)
Definition simple_writes (name message : string) : list stdio_call :=
  [Fputs name; Fputs ": "; Fputs message; Fputs newline].

(** The stream calls [Formatted.mu_log_stdout_fn] makes when nothing
    fails. *)
Definition formatted_writes (name format : string) (ap : va_list)
  : list stdio_call :=
  [Printf "%5s: " [Vstr name]; Vprintf format ap; Printf newline []].

(** A run that made the stream calls [ws] and ended with [r] stopped at
    its first failed write: a call that returned a negative value is the
    last one made, and its value is the value of the run. *)
Definition stops_at_failed_write (ws : stdio_log) (r : result Z) : Prop :=
  forall pre c n post,
    ws = pre ++ (c, n) :: post -> n < 0 -> post = [] /\ r = Ok n.

(** What the stream answers when the calls [cs] are made in order after
    the history [h]: each call with the value it returns. *)
Fixpoint stream_answers (stdio_ret : stdio_log -> stdio_call -> Z)
  (h : stdio_log) (cs : list stdio_call) : stdio_log :=
  match cs with
  | [] => []
  | c :: rest =>
      let n := stdio_ret h c in
      (c, n) :: stream_answers stdio_ret (h ++ [(c, n)]) rest
  end.

(** The operations that are calls of a setter. *)
Definition simple_op_is_setter (o : Simple.op) : bool :=
  match o with
  | Simple.op_set_fn _ | Simple.op_set_threshold _ => true
  | _ => false
  end.

Definition formatted_op_is_setter (o : Formatted.op) : bool :=
  match o with
  | Formatted.op_set_fn _ | Formatted.op_set_threshold _ => true
  | _ => false
  end.

(** A call of one of the two setters. *)
Inductive setter_call : Type :=
| call_set_fn (fn : mu_log_fn)
| call_set_threshold (t : mu_log_level_t).

(** The precondition on a setter call: a threshold is a defined level. *)
Definition setter_ok (c : setter_call) : Prop :=
  match c with
  | call_set_fn _ => True
  | call_set_threshold t => is_defined_level t
  end.

Definition run_setter {U : Type} (w : world U) (c : setter_call) : world U :=
  match c with
  | call_set_fn fn => snd (mu_log_set_fn fn w)
  | call_set_threshold t => snd (mu_log_set_threshold t w)
  end.

Definition run_setters {U : Type} (cs : list setter_call) (w : world U)
  : world U :=
  fold_left run_setter cs w.

(** [s_logger] is static: code of the embedding program changes it only
    by calling the setters.  [via_setters w w'] says that the logger
    state of [w'] is the one some sequence of permitted setter calls
    produces from [w]. *)
Definition via_setters {U : Type} (w w' : world U) : Prop :=
  exists cs, Forall setter_ok cs /\ s_logger w' = s_logger (run_setters cs w).

Definition simple_op_ok (o : Simple.op) : Prop :=
  match o with
  | Simple.op_set_threshold t => is_defined_level t
  | _ => True
  end.

Definition formatted_op_ok (o : Formatted.op) : Prop :=
  match o with
  | Formatted.op_set_threshold t => is_defined_level t
  | _ => True
  end.

(** The operations whose body is library code that is not a setter: every
    operation but the setters and [mu_log], which runs the installed
    function. *)
Definition simple_op_reads (o : Simple.op) : bool :=
  match o with
  | Simple.op_set_fn _ | Simple.op_set_threshold _ | Simple.op_log _ _ => false
  | _ => true
  end.

Definition formatted_op_reads (o : Formatted.op) : bool :=
  match o with
  | Formatted.op_set_fn _ | Formatted.op_set_threshold _
  | Formatted.op_log _ _ _ => false
  | _ => true
  end.

(** The world in which [fn] is installed at threshold [t], after the
    stream calls [out], with program state [u]. *)
Definition world_with {U : Type} (fn : mu_log_fn) (t : mu_log_level_t)
  (out : stdio_log) (u : U) : world U :=
  {| s_logger := {| log_fn := fn; threshold := t |};
     stdout_calls := out;
     app_state := u |}.

(* ********************************************************************** *)
(** ** The level macros of [mu_log.h] *)

(** [MU_LOG_TRACE(...)] to [MU_LOG_FATAL(...)] in Simple mode: each expands
    to [mu_log] at its level. *)
Module SimpleMacros.

Section Code.

Variable U : Type.
Variable stdio_ret : stdio_log -> stdio_call -> Z.
Variable user_fn : nat -> mu_log_level_t -> string -> M U Z.

Definition MU_LOG_TRACE (message : string) : M U unit :=
  Simple.mu_log stdio_ret user_fn MU_LOG_LEVEL_TRACE message.
Definition MU_LOG_DEBUG (message : string) : M U unit :=
  Simple.mu_log stdio_ret user_fn MU_LOG_LEVEL_DEBUG message.
Definition MU_LOG_INFO (message : string) : M U unit :=
  Simple.mu_log stdio_ret user_fn MU_LOG_LEVEL_INFO message.
Definition MU_LOG_WARN (message : string) : M U unit :=
  Simple.mu_log stdio_ret user_fn MU_LOG_LEVEL_WARN message.
Definition MU_LOG_ERROR (message : string) : M U unit :=
  Simple.mu_log stdio_ret user_fn MU_LOG_LEVEL_ERROR message.
Definition MU_LOG_FATAL (message : string) : M U unit :=
  Simple.mu_log stdio_ret user_fn MU_LOG_LEVEL_FATAL message.

End Code.

Arguments MU_LOG_TRACE {U} stdio_ret user_fn message.
Arguments MU_LOG_DEBUG {U} stdio_ret user_fn message.
Arguments MU_LOG_INFO {U} stdio_ret user_fn message.
Arguments MU_LOG_WARN {U} stdio_ret user_fn message.
Arguments MU_LOG_ERROR {U} stdio_ret user_fn message.
Arguments MU_LOG_FATAL {U} stdio_ret user_fn message.

End SimpleMacros.

(** The stream calls made since the history [out], without their
    results. *)
Definition calls_since {U : Type} (out : stdio_log) (w : world U)
  : list stdio_call :=
  map fst (skipn (List.length out) (stdout_calls w)).

(** What a level macro writes through [Simple.mu_log_stdout_fn] at
    threshold [t] when the stream does not fail. *)
Definition simple_line (t level : mu_log_level_t) (name message : string)
  : list stdio_call :=
  if level >=? t then simple_writes name message else [].

(** An operation that installs a function. *)
Definition simple_op_installs (o : Simple.op) : bool :=
  match o with
  | Simple.op_set_fn (Some _) => true
  | _ => false
  end.

Definition simple_op_is_log (o : Simple.op) : bool :=
  match o with
  | Simple.op_log _ _ => true
  | _ => false
  end.

(** Case analysis on the sign tests [n < 0] of the goal, outermost
    first. *)
Ltac sign_cases :=
  repeat match goal with
    | |- context [if ?n <? 0 then _ else _] =>
        let E := fresh "E" in
        destruct (Z.ltb_spec n 0) as [E | E]
    end.

(** Case analysis on a hypothesis that one of the calls of an explicit
    history failed. *)
Ltac failed_write_cases :=
  repeat match goal with
    | H : exists _, _ |- _ => destruct H
    | H : _ /\ _ |- _ => destruct H
    | H : In _ (_ :: _) |- _ => destruct H
    | H : In _ [] |- _ => destruct H
    | H : (_, _) = (_, _) |- _ => injection H as <- <-
    end.

(** Exhibits a failed call among the first four of an explicit history. *)
Ltac pick_failed_write :=
  first
    [ solve [ do 2 eexists; split; [ left; reflexivity | assumption ] ]
    | solve [ do 2 eexists; split; [ right; left; reflexivity | assumption ] ]
    | solve [ do 2 eexists; split;
              [ right; right; left; reflexivity | assumption ] ]
    | solve [ do 2 eexists; split;
              [ right; right; right; left; reflexivity | assumption ] ] ].

(* ********************************************************************** *)
(** ** Levels, names and the predicate [mu_log_will_log] *)

Lemma to_size_t_small (v : Z) :
  in_level_range v -> (to_size_t v <? N_LOG_LEVELS) = true -> 0 <= v < 6.
Proof.
  unfold in_level_range, to_size_t, N_LOG_LEVELS, INT_MIN, SIZE_MAX.
  simpl List.length. intros Hr Hlt. apply Z.ltb_lt in Hlt.
  destruct (Z_lt_dec v 0) as [Hneg | Hpos].
  - exfalso.
    assert (E : v mod (2 ^ 64 - 1 + 1) = v + 2 ^ 64).
    { symmetry. apply Z.mod_unique with (q := -1); lia. }
    rewrite E in Hlt. lia.
  - rewrite Z.mod_small in Hlt by lia. lia.
Qed.

Lemma to_size_t_defined (v : Z) :
  0 <= v < 6 -> (to_size_t v <? N_LOG_LEVELS) = true.
Proof.
  unfold to_size_t, N_LOG_LEVELS, SIZE_MAX. simpl List.length. intros H.
  apply Z.ltb_lt. rewrite Z.mod_small by lia. lia.
Qed.

Lemma is_defined_level_range (v : Z) : is_defined_level v <-> 0 <= v < 6.
Proof.
  unfold is_defined_level, defined_levels, MU_LOG_LEVEL_TRACE,
    MU_LOG_LEVEL_DEBUG, MU_LOG_LEVEL_INFO, MU_LOG_LEVEL_WARN,
    MU_LOG_LEVEL_ERROR, MU_LOG_LEVEL_FATAL.
  simpl. lia.
Qed.

Lemma level_name_unknown (v : Z) :
  in_level_range v -> ~ is_defined_level v ->
  mu_log_level_name v = Ok "UNKNOWN".
Proof.
  intros Hr Hnd. unfold mu_log_level_name.
  destruct (to_size_t v <? N_LOG_LEVELS) eqn:E; [ | reflexivity ].
  exfalso. apply Hnd. apply is_defined_level_range.
  now apply to_size_t_small.
Qed.

Lemma level_name_total (v : Z) :
  in_level_range v -> exists name, mu_log_level_name v = Ok name.
Proof.
  intros Hr. unfold mu_log_level_name.
  destruct (to_size_t v <? N_LOG_LEVELS) eqn:E.
  - apply to_size_t_small in E; [ | exact Hr ].
    assert (C : v = 0 \/ v = 1 \/ v = 2 \/ v = 3 \/ v = 4 \/ v = 5) by lia.
    destruct C as [-> | [-> | [-> | [-> | [-> | ->]]]]]; eexists; reflexivity.
  - eexists; reflexivity.
Qed.

(** C5: on every value of the level type, [mu_log_level_name] returns
    (it never reads outside [s_level_names]); it returns the fixed display
    name on each of the six defined levels and the string UNKNOWN on every
    other value, negative ones included. *)
Theorem mu_log_level_name_spec (v : mu_log_level_t) :
  in_level_range v ->
  (exists name, mu_log_level_name v = Ok name) /\
  (v = MU_LOG_LEVEL_TRACE -> mu_log_level_name v = Ok "TRACE") /\
  (v = MU_LOG_LEVEL_DEBUG -> mu_log_level_name v = Ok "DEBUG") /\
  (v = MU_LOG_LEVEL_INFO -> mu_log_level_name v = Ok "INFO") /\
  (v = MU_LOG_LEVEL_WARN -> mu_log_level_name v = Ok "WARN") /\
  (v = MU_LOG_LEVEL_ERROR -> mu_log_level_name v = Ok "ERROR") /\
  (v = MU_LOG_LEVEL_FATAL -> mu_log_level_name v = Ok "FATAL") /\
  (~ is_defined_level v -> mu_log_level_name v = Ok "UNKNOWN").
Proof.
  intros Hr. split; [ now apply level_name_total | ].
  repeat split; try (intros ->; reflexivity).
  now apply level_name_unknown.
Qed.

Lemma mu_log_level_name_spec_witness :
  in_level_range (-1) /\ mu_log_level_name (-1) = Ok "UNKNOWN".
Proof.
  assert (R : in_level_range (-1)) by (unfold in_level_range, INT_MIN; lia).
  split; [ exact R | ].
  apply (mu_log_level_name_spec (-1) R).
  rewrite is_defined_level_range. lia.
Defined.

Lemma will_log_run (U : Type) (w : world U) (L : mu_log_level_t) :
  mu_log_will_log L w =
  (Ok (negb (is_null (log_fn (s_logger w))) && (L >=? threshold (s_logger w))),
   w).
Proof. reflexivity. Qed.

Lemma is_null_spec (p : mu_log_fn) : is_null p = true <-> p = NULL.
Proof. destruct p; simpl; unfold NULL; split; congruence. Qed.

(** C4: [mu_log_will_log] reads the state without changing it and answers
    true exactly when a function is installed and the level is at least
    the threshold, in the order TRACE < DEBUG < INFO < WARN < ERROR <
    FATAL of the enumerators; with no function installed it answers
    false whatever the level and the threshold. *)
Theorem mu_log_will_log_spec (U : Type) (w : world U) (L : mu_log_level_t) :
  (MU_LOG_LEVEL_TRACE < MU_LOG_LEVEL_DEBUG /\
   MU_LOG_LEVEL_DEBUG < MU_LOG_LEVEL_INFO /\
   MU_LOG_LEVEL_INFO < MU_LOG_LEVEL_WARN /\
   MU_LOG_LEVEL_WARN < MU_LOG_LEVEL_ERROR /\
   MU_LOG_LEVEL_ERROR < MU_LOG_LEVEL_FATAL) /\
  exists b : bool,
    mu_log_will_log L w = (Ok b, w) /\
    (b = true <->
     log_fn (s_logger w) <> NULL /\ L >= threshold (s_logger w)) /\
    (log_fn (s_logger w) = NULL -> b = false).
Proof.
  split.
  - unfold MU_LOG_LEVEL_TRACE, MU_LOG_LEVEL_DEBUG, MU_LOG_LEVEL_INFO,
      MU_LOG_LEVEL_WARN, MU_LOG_LEVEL_ERROR, MU_LOG_LEVEL_FATAL. lia.
  - eexists. split; [ apply will_log_run | ]. split.
    + rewrite andb_true_iff, negb_true_iff, Z.geb_le.
      rewrite <- not_true_iff_false, is_null_spec, Z.ge_le_iff. tauto.
    + intros E. apply is_null_spec in E. rewrite E. reflexivity.
Qed.

(* ********************************************************************** *)
(** ** The setters and getters *)

(** C9: from any state, [mu_log_set_threshold T] followed by
    [mu_log_get_threshold] yields exactly [T]; both calls are defined and
    the read leaves the state as the setter made it. *)
Theorem set_get_threshold_roundtrip (U : Type) (w : world U)
  (T : mu_log_level_t) :
  exists w' : world U,
    mu_log_set_threshold T w = (Ok tt, w') /\
    mu_log_get_threshold w' = (Ok T, w').
Proof. eexists. split; reflexivity. Qed.

(** X2: from any state, [mu_log_set_fn fn] followed by [mu_log_get_fn]
    yields exactly [fn], [NULL] included; a second read without a setter
    in between yields the same value. *)
Theorem set_get_fn_roundtrip (U : Type) (w : world U) (fn : mu_log_fn) :
  exists w' : world U,
    mu_log_set_fn fn w = (Ok tt, w') /\
    mu_log_get_fn w' = (Ok fn, w') /\
    mu_log_get_fn (snd (mu_log_get_fn w')) = (Ok fn, w').
Proof. eexists. repeat split. Qed.

(** C10: [mu_log_set_fn] changes the installed function and nothing
    else, the threshold in particular, also when it installs [NULL];
    [mu_log_set_threshold] changes the threshold and leaves the installed
    function as it was. *)
Theorem setters_frame (U : Type) (w : world U) :
  (forall fn : mu_log_fn,
     exists w' : world U,
       mu_log_set_fn fn w = (Ok tt, w') /\
       log_fn (s_logger w') = fn /\
       threshold (s_logger w') = threshold (s_logger w) /\
       stdout_calls w' = stdout_calls w /\
       app_state w' = app_state w) /\
  (forall t : mu_log_level_t,
     exists w' : world U,
       mu_log_set_threshold t w = (Ok tt, w') /\
       threshold (s_logger w') = t /\
       log_fn (s_logger w') = log_fn (s_logger w) /\
       stdout_calls w' = stdout_calls w /\
       app_state w' = app_state w).
Proof.
  split; intros x; eexists; (split; [ reflexivity | ]); simpl; auto.
Qed.

(* ********************************************************************** *)
(** ** The default sink [mu_log_stdout_fn] *)

Lemma will_log_true_inv (U : Type) (w : world U) (L : mu_log_level_t) :
  fst (mu_log_will_log L w) = Ok true ->
  negb (is_null (log_fn (s_logger w))) && (L >=? threshold (s_logger w)) = true.
Proof. rewrite will_log_run. simpl. congruence. Qed.

Lemma will_log_false_inv (U : Type) (w : world U) (L : mu_log_level_t) :
  fst (mu_log_will_log L w) = Ok false ->
  negb (is_null (log_fn (s_logger w))) && (L >=? threshold (s_logger w)) = false.
Proof. rewrite will_log_run. simpl. congruence. Qed.

Lemma will_log_bool (U : Type) (w : world U) (L : mu_log_level_t) :
  fst (mu_log_will_log L w) = Ok true \/ fst (mu_log_will_log L w) = Ok false.
Proof.
  rewrite will_log_run. simpl.
  destruct (negb (is_null (log_fn (s_logger w))) && (L >=? threshold (s_logger w)));
    auto.
Qed.

(** The run of the Simple sink, flattened: the four stream calls with the
    four early returns. *)
Lemma simple_stdout_fn_cases (U : Type) (stdio_ret : stdio_log -> stdio_call -> Z)
  (L : mu_log_level_t) (message : string) (w : world U) (name : string) :
  fst (mu_log_will_log L w) = Ok true ->
  mu_log_level_name L = Ok name ->
  let n1 := stdio_ret (stdout_calls w) (Fputs name) in
  let w1 := record_call w (Fputs name) n1 in
  let n2 := stdio_ret (stdout_calls w1) (Fputs ": ") in
  let w2 := record_call w1 (Fputs ": ") n2 in
  let n3 := stdio_ret (stdout_calls w2) (Fputs message) in
  let w3 := record_call w2 (Fputs message) n3 in
  let n4 := stdio_ret (stdout_calls w3) (Fputs newline) in
  let w4 := record_call w3 (Fputs newline) n4 in
  Simple.mu_log_stdout_fn stdio_ret L message w =
  if n1 <? 0 then (Ok n1, w1)
  else if n2 <? 0 then (Ok n2, w2)
  else if n3 <? 0 then (Ok n3, w3)
  else (Ok n4, w4).
Proof.
  intros Hw Hn. intros. apply will_log_true_inv in Hw.
  unfold Simple.mu_log_stdout_fn.
  unfold bind at 1. rewrite will_log_run, Hw.
  cbn [negb]. unfold bind at 1, lift. rewrite Hn.
  unfold bind, fputs, stdio, ret. fold n1. fold w1.
  destruct (n1 <? 0); [ reflexivity | ]. fold n2; fold w2.
  destruct (n2 <? 0); [ reflexivity | ]. fold n3; fold w3.
  destruct (n3 <? 0); [ reflexivity | ]. fold n4; fold w4.
  destruct (n4 <? 0); reflexivity.
Qed.

(** The run of the Formatted sink, flattened. *)
Lemma formatted_stdout_fn_cases (U : Type)
  (stdio_ret : stdio_log -> stdio_call -> Z) (L : mu_log_level_t)
  (format : string) (ap : va_list) (w : world U) (name : string) :
  fst (mu_log_will_log L w) = Ok true ->
  mu_log_level_name L = Ok name ->
  let n1 := stdio_ret (stdout_calls w) (Printf "%5s: " [Vstr name]) in
  let w1 := record_call w (Printf "%5s: " [Vstr name]) n1 in
  let n2 := stdio_ret (stdout_calls w1) (Vprintf format ap) in
  let w2 := record_call w1 (Vprintf format ap) n2 in
  let n3 := stdio_ret (stdout_calls w2) (Printf newline []) in
  let w3 := record_call w2 (Printf newline []) n3 in
  Formatted.mu_log_stdout_fn stdio_ret L format ap w =
  if n1 <? 0 then (Ok n1, w1)
  else if n2 <? 0 then (Ok n2, w2)
  else if n3 <? 0 then (Ok n3, w3)
  else (match int_add n1 n2 with
        | Ok n12 => int_add n12 n3
        | Undefined => Undefined
        end, w3).
Proof.
  intros Hw Hn. intros. apply will_log_true_inv in Hw.
  unfold Formatted.mu_log_stdout_fn.
  unfold bind at 1. rewrite will_log_run, Hw.
  cbn [negb]. unfold bind at 1, lift. rewrite Hn.
  unfold bind, printf, vprintf, stdio, ret. fold n1. fold w1.
  destruct (n1 <? 0); [ reflexivity | ]. fold n2; fold w2.
  destruct (n2 <? 0); [ reflexivity | ]. fold n3; fold w3.
  destruct (n3 <? 0); [ reflexivity | ].
  destruct (int_add n1 n2); reflexivity.
Qed.

Lemma simple_stdout_fn_no_name (U : Type)
  (stdio_ret : stdio_log -> stdio_call -> Z) (L : mu_log_level_t)
  (message : string) (w : world U) :
  fst (mu_log_will_log L w) = Ok true ->
  mu_log_level_name L = Undefined ->
  Simple.mu_log_stdout_fn stdio_ret L message w = (Undefined, w).
Proof.
  intros Hw Hn. apply will_log_true_inv in Hw.
  unfold Simple.mu_log_stdout_fn.
  unfold bind at 1. rewrite will_log_run, Hw.
  cbn [negb]. unfold bind at 1, lift. rewrite Hn. reflexivity.
Qed.

Lemma formatted_stdout_fn_no_name (U : Type)
  (stdio_ret : stdio_log -> stdio_call -> Z) (L : mu_log_level_t)
  (format : string) (ap : va_list) (w : world U) :
  fst (mu_log_will_log L w) = Ok true ->
  mu_log_level_name L = Undefined ->
  Formatted.mu_log_stdout_fn stdio_ret L format ap w = (Undefined, w).
Proof.
  intros Hw Hn. apply will_log_true_inv in Hw.
  unfold Formatted.mu_log_stdout_fn.
  unfold bind at 1. rewrite will_log_run, Hw.
  cbn [negb]. unfold bind at 1, lift. rewrite Hn. reflexivity.
Qed.

Lemma simple_stdout_fn_gated (U : Type)
  (stdio_ret : stdio_log -> stdio_call -> Z) (L : mu_log_level_t)
  (message : string) (w : world U) :
  fst (mu_log_will_log L w) = Ok false ->
  Simple.mu_log_stdout_fn stdio_ret L message w = (Ok 0, w).
Proof.
  intros Hw. apply will_log_false_inv in Hw.
  unfold Simple.mu_log_stdout_fn.
  unfold bind at 1. rewrite will_log_run, Hw. reflexivity.
Qed.

Lemma formatted_stdout_fn_gated (U : Type)
  (stdio_ret : stdio_log -> stdio_call -> Z) (L : mu_log_level_t)
  (format : string) (ap : va_list) (w : world U) :
  fst (mu_log_will_log L w) = Ok false ->
  Formatted.mu_log_stdout_fn stdio_ret L format ap w = (Ok 0, w).
Proof.
  intros Hw. apply will_log_false_inv in Hw.
  unfold Formatted.mu_log_stdout_fn.
  unfold bind at 1. rewrite will_log_run, Hw. reflexivity.
Qed.

(** C7: when [mu_log_will_log level] is false (no function installed, or
    the level below the threshold), the default sink of either mode
    returns 0 and leaves the world as it found it: no stream call is
    made. *)
Theorem stdout_fn_below_threshold (U : Type)
  (stdio_ret : stdio_log -> stdio_call -> Z) (L : mu_log_level_t)
  (w : world U) :
  fst (mu_log_will_log L w) = Ok false ->
  (forall message : string,
     Simple.mu_log_stdout_fn stdio_ret L message w = (Ok 0, w)) /\
  (forall (format : string) (ap : va_list),
     Formatted.mu_log_stdout_fn stdio_ret L format ap w = (Ok 0, w)).
Proof.
  intros Hw. split; intros.
  - now apply simple_stdout_fn_gated.
  - now apply formatted_stdout_fn_gated.
Qed.

Lemma stdout_fn_below_threshold_witness :
  let w := world_with (Some addr_mu_log_stdout_fn) MU_LOG_LEVEL_INFO [] tt in
  fst (mu_log_will_log MU_LOG_LEVEL_DEBUG w) = Ok false /\
  Simple.mu_log_stdout_fn stdio_fake MU_LOG_LEVEL_DEBUG "Hello" w = (Ok 0, w) /\
  fst (mu_log_will_log MU_LOG_LEVEL_FATAL (world_init tt)) = Ok false /\
  Formatted.mu_log_stdout_fn stdio_fake MU_LOG_LEVEL_FATAL "Hello, %s!"
    [Vstr "world"] (world_init tt) = (Ok 0, world_init tt).
Proof.
  intros w.
  split; [ reflexivity | ]. split.
  - apply (stdout_fn_below_threshold unit stdio_fake MU_LOG_LEVEL_DEBUG w).
    reflexivity.
  - split; [ reflexivity | ].
    apply (stdout_fn_below_threshold unit stdio_fake MU_LOG_LEVEL_FATAL
             (world_init tt)).
    reflexivity.
Defined.

Lemma stops_nil (r : result Z) : stops_at_failed_write [] r.
Proof. intros pre c n post H. destruct pre; discriminate. Qed.

Lemma stops_last (c : stdio_call) (n : Z) (r : result Z) :
  (n < 0 -> r = Ok n) -> stops_at_failed_write [(c, n)] r.
Proof.
  intros Hr pre c' n' post H Hneg.
  destruct pre as [ | x pre]; simpl in H.
  - injection H as <- <- <-. auto.
  - destruct pre; discriminate.
Qed.

Lemma stops_cons_ok (c : stdio_call) (n : Z) (ws : stdio_log) (r : result Z) :
  0 <= n -> stops_at_failed_write ws r ->
  stops_at_failed_write ((c, n) :: ws) r.
Proof.
  intros Hn Hws pre c' n' post H Hneg.
  destruct pre as [ | x pre]; simpl in H.
  - injection H as <- <- <-. lia.
  - injection H as _ H. exact (Hws pre c' n' post H Hneg).
Qed.

Lemma record_call_calls (U : Type) (w : world U) (c : stdio_call) (n : Z) :
  stdout_calls (record_call w c n) = stdout_calls w ++ [(c, n)].
Proof. reflexivity. Qed.

Create HintDb stops.
#[local] Hint Resolve stops_nil stops_last stops_cons_ok : stops.

Lemma simple_stdout_fn_short_circuit (U : Type)
  (stdio_ret : stdio_log -> stdio_call -> Z) (L : mu_log_level_t)
  (message : string) (w : world U) :
  exists ws : stdio_log,
    stdout_calls (snd (Simple.mu_log_stdout_fn stdio_ret L message w)) =
      stdout_calls w ++ ws /\
    stops_at_failed_write ws
      (fst (Simple.mu_log_stdout_fn stdio_ret L message w)) /\
    (forall name, mu_log_level_name L = Ok name ->
       exists k, map fst ws = firstn k (simple_writes name message)).
Proof.
  destruct (will_log_bool U w L) as [Hw | Hw].
  - destruct (mu_log_level_name L) as [name | ] eqn:Hn.
    + rewrite (simple_stdout_fn_cases U stdio_ret L message w name Hw Hn).
      cbv zeta. sign_cases; cbn [fst snd];
        rewrite ?record_call_calls, <- ?app_assoc in *; cbn [app] in *;
        eexists; (split; [ reflexivity | ]); (split; [ auto 8 with stops | ]);
        intros name' Hn'; injection Hn' as <-.
      * now exists 1%nat.
      * now exists 2%nat.
      * now exists 3%nat.
      * now exists 4%nat.
    + rewrite (simple_stdout_fn_no_name U stdio_ret L message w Hw Hn).
      exists []. rewrite app_nil_r.
      split; [ reflexivity | ]. split; [ apply stops_nil | ].
      intros name Hn'. discriminate.
  - rewrite (simple_stdout_fn_gated U stdio_ret L message w Hw).
    exists []. rewrite app_nil_r.
      split; [ reflexivity | ]. split; [ apply stops_nil | ].
    intros name _. now exists 0%nat.
Qed.

Lemma formatted_stdout_fn_short_circuit (U : Type)
  (stdio_ret : stdio_log -> stdio_call -> Z) (L : mu_log_level_t)
  (format : string) (ap : va_list) (w : world U) :
  exists ws : stdio_log,
    stdout_calls (snd (Formatted.mu_log_stdout_fn stdio_ret L format ap w)) =
      stdout_calls w ++ ws /\
    stops_at_failed_write ws
      (fst (Formatted.mu_log_stdout_fn stdio_ret L format ap w)) /\
    (forall name, mu_log_level_name L = Ok name ->
       exists k, map fst ws = firstn k (formatted_writes name format ap)).
Proof.
  destruct (will_log_bool U w L) as [Hw | Hw].
  - destruct (mu_log_level_name L) as [name | ] eqn:Hn.
    + rewrite (formatted_stdout_fn_cases U stdio_ret L format ap w name Hw Hn).
      cbv zeta. sign_cases; cbn [fst snd];
        rewrite ?record_call_calls, <- ?app_assoc in *; cbn [app] in *;
        eexists; (split; [ reflexivity | ]); (split; [ auto 8 with stops | ]);
        intros name' Hn'; injection Hn' as <-.
      * now exists 1%nat.
      * now exists 2%nat.
      * now exists 3%nat.
      * now exists 3%nat.
    + rewrite (formatted_stdout_fn_no_name U stdio_ret L format ap w Hw Hn).
      exists []. rewrite app_nil_r.
      split; [ reflexivity | ]. split; [ apply stops_nil | ].
      intros name Hn'. discriminate.
  - rewrite (formatted_stdout_fn_gated U stdio_ret L format ap w Hw).
    exists []. rewrite app_nil_r.
      split; [ reflexivity | ]. split; [ apply stops_nil | ].
    intros name _. now exists 0%nat.
Qed.

Lemma nonneg_head (pre : stdio_log) (c : stdio_call) (n : Z) :
  (forall c' n', In (c', n') ((c, n) :: pre) -> 0 <= n') ->
  0 <= n /\ (forall c' n', In (c', n') pre -> 0 <= n').
Proof.
  intros H. split.
  - apply (H c n). now left.
  - intros c' n' Hin. apply (H c' n'). now right.
Qed.

Lemma ltb_neg (n : Z) : n < 0 -> (n <? 0) = true.
Proof. intros H. now apply Z.ltb_lt. Qed.

Lemma ltb_nonneg (n : Z) : 0 <= n -> (n <? 0) = false.
Proof. intros H. now apply Z.ltb_ge. Qed.

Lemma simple_stdout_fn_first_failure (U : Type)
  (stdio_ret : stdio_log -> stdio_call -> Z) (L : mu_log_level_t)
  (w : world U) (name message : string)
  (pre : stdio_log) (c : stdio_call) (n : Z) (post : stdio_log) :
  fst (mu_log_will_log L w) = Ok true ->
  mu_log_level_name L = Ok name ->
  stream_answers stdio_ret (stdout_calls w) (simple_writes name message) =
    pre ++ (c, n) :: post ->
  (forall c' n', In (c', n') pre -> 0 <= n') ->
  n < 0 ->
  Simple.mu_log_stdout_fn stdio_ret L message w =
  (Ok n, {| s_logger := s_logger w;
            stdout_calls := stdout_calls w ++ pre ++ [(c, n)];
            app_state := app_state w |}).
Proof.
  intros Hw Hn Hsplit Hpre Hneg.
  rewrite (simple_stdout_fn_cases U stdio_ret L message w name Hw Hn).
  cbv zeta. unfold record_call. cbn [stdout_calls s_logger app_state].
  cbn [stream_answers simple_writes] in Hsplit.
  destruct pre as [ | p1 pre]; cbn [app] in Hsplit.
  { injection Hsplit as Hc Hv _. subst c n.
    rewrite (ltb_neg _ Hneg). reflexivity. }
  injection Hsplit as Hp Hsplit. subst p1.
  apply nonneg_head in Hpre. destruct Hpre as [H1 Hpre].
  rewrite (ltb_nonneg _ H1).
  destruct pre as [ | p2 pre]; cbn [app] in Hsplit.
  { injection Hsplit as Hc Hv _. subst c n.
    rewrite (ltb_neg _ Hneg). cbn [app]. now rewrite <- app_assoc. }
  injection Hsplit as Hp Hsplit. subst p2.
  apply nonneg_head in Hpre. destruct Hpre as [H2 Hpre].
  rewrite (ltb_nonneg _ H2).
  destruct pre as [ | p3 pre]; cbn [app] in Hsplit.
  { injection Hsplit as Hc Hv _. subst c n.
    rewrite (ltb_neg _ Hneg). cbn [app]. now rewrite <- !app_assoc. }
  injection Hsplit as Hp Hsplit. subst p3.
  apply nonneg_head in Hpre. destruct Hpre as [H3 Hpre].
  rewrite (ltb_nonneg _ H3).
  destruct pre as [ | p4 pre]; cbn [app] in Hsplit.
  { injection Hsplit as Hc Hv _. subst c n.
    cbn [app]. now rewrite <- !app_assoc. }
  injection Hsplit as _ Hsplit. destruct pre; discriminate Hsplit.
Qed.

Lemma formatted_stdout_fn_first_failure (U : Type)
  (stdio_ret : stdio_log -> stdio_call -> Z) (L : mu_log_level_t)
  (w : world U) (name format : string) (ap : va_list)
  (pre : stdio_log) (c : stdio_call) (n : Z) (post : stdio_log) :
  fst (mu_log_will_log L w) = Ok true ->
  mu_log_level_name L = Ok name ->
  stream_answers stdio_ret (stdout_calls w) (formatted_writes name format ap) =
    pre ++ (c, n) :: post ->
  (forall c' n', In (c', n') pre -> 0 <= n') ->
  n < 0 ->
  Formatted.mu_log_stdout_fn stdio_ret L format ap w =
  (Ok n, {| s_logger := s_logger w;
            stdout_calls := stdout_calls w ++ pre ++ [(c, n)];
            app_state := app_state w |}).
Proof.
  intros Hw Hn Hsplit Hpre Hneg.
  rewrite (formatted_stdout_fn_cases U stdio_ret L format ap w name Hw Hn).
  cbv zeta. unfold record_call. cbn [stdout_calls s_logger app_state].
  cbn [stream_answers formatted_writes] in Hsplit.
  destruct pre as [ | p1 pre]; cbn [app] in Hsplit.
  { injection Hsplit as Hc Hv _. subst c n.
    rewrite (ltb_neg _ Hneg). reflexivity. }
  injection Hsplit as Hp Hsplit. subst p1.
  apply nonneg_head in Hpre. destruct Hpre as [H1 Hpre].
  rewrite (ltb_nonneg _ H1).
  destruct pre as [ | p2 pre]; cbn [app] in Hsplit.
  { injection Hsplit as Hc Hv _. subst c n.
    rewrite (ltb_neg _ Hneg). cbn [app]. now rewrite <- app_assoc. }
  injection Hsplit as Hp Hsplit. subst p2.
  apply nonneg_head in Hpre. destruct Hpre as [H2 Hpre].
  rewrite (ltb_nonneg _ H2).
  destruct pre as [ | p3 pre]; cbn [app] in Hsplit.
  { injection Hsplit as Hc Hv _. subst c n.
    rewrite (ltb_neg _ Hneg). cbn [app]. now rewrite <- !app_assoc. }
  injection Hsplit as _ Hsplit. destruct pre; discriminate Hsplit.
Qed.

(** C6: in both modes the default sink stops at the first stream call
    that fails.  Take the answers the stream gives to the sink's calls
    made in order (the level name, the separator, the message, the
    newline; in Formatted mode the padded name, the format with its
    arguments, the newline).  When the first negative answer is the
    answer [n] to the call [c], after the calls [pre] that succeeded, the
    sink returns exactly [n], and the calls it made are exactly [pre]
    followed by [c]: none of the calls after [c] is made, and nothing
    else of the world changes. *)
Theorem stdout_fn_stops_at_first_failure (U : Type)
  (stdio_ret : stdio_log -> stdio_call -> Z) (L : mu_log_level_t)
  (w : world U) (name : string) :
  fst (mu_log_will_log L w) = Ok true ->
  mu_log_level_name L = Ok name ->
  (forall (message : string) (pre : stdio_log) (c : stdio_call) (n : Z)
          (post : stdio_log),
     stream_answers stdio_ret (stdout_calls w) (simple_writes name message) =
       pre ++ (c, n) :: post ->
     (forall c' n', In (c', n') pre -> 0 <= n') ->
     n < 0 ->
     Simple.mu_log_stdout_fn stdio_ret L message w =
     (Ok n, {| s_logger := s_logger w;
               stdout_calls := stdout_calls w ++ pre ++ [(c, n)];
               app_state := app_state w |})) /\
  (forall (format : string) (ap : va_list) (pre : stdio_log)
          (c : stdio_call) (n : Z) (post : stdio_log),
     stream_answers stdio_ret (stdout_calls w)
       (formatted_writes name format ap) = pre ++ (c, n) :: post ->
     (forall c' n', In (c', n') pre -> 0 <= n') ->
     n < 0 ->
     Formatted.mu_log_stdout_fn stdio_ret L format ap w =
     (Ok n, {| s_logger := s_logger w;
               stdout_calls := stdout_calls w ++ pre ++ [(c, n)];
               app_state := app_state w |})).
Proof.
  intros Hw Hn. split; intros.
  - now apply (simple_stdout_fn_first_failure U stdio_ret L w name message
                 pre c n post).
  - now apply (formatted_stdout_fn_first_failure U stdio_ret L w name format ap
                 pre c n post).
Qed.

Lemma stdout_fn_stops_at_first_failure_witness :
  Simple.mu_log_stdout_fn (stdio_fail_at 2 (-1)) MU_LOG_LEVEL_WARN "Hello"
    (world_with (Some addr_mu_log_stdout_fn) MU_LOG_LEVEL_INFO [] tt) =
  (Ok (-1),
   world_with (Some addr_mu_log_stdout_fn) MU_LOG_LEVEL_INFO
     [(Fputs "WARN", 0); (Fputs ": ", 0); (Fputs "Hello", -1)] tt) /\
  Formatted.mu_log_stdout_fn (stdio_fail_at 0 (-5)) MU_LOG_LEVEL_WARN
    "Hello, %s!" [Vstr "world"]
    (world_with (Some addr_mu_log_stdout_fn) MU_LOG_LEVEL_INFO [] tt) =
  (Ok (-5),
   world_with (Some addr_mu_log_stdout_fn) MU_LOG_LEVEL_INFO
     [(Printf "%5s: " [Vstr "WARN"], -5)] tt).
Proof.
  split.
  - apply (proj1 (stdout_fn_stops_at_first_failure unit (stdio_fail_at 2 (-1))
                    MU_LOG_LEVEL_WARN
                    (world_with (Some addr_mu_log_stdout_fn) MU_LOG_LEVEL_INFO
                       [] tt)
                    "WARN" eq_refl eq_refl)
             "Hello" [(Fputs "WARN", 0); (Fputs ": ", 0)] (Fputs "Hello") (-1)
             [(Fputs newline, 0)] eq_refl).
    + intros c' n' [E | [E | []]]; injection E as _ <-; lia.
    + lia.
  - apply (proj2 (stdout_fn_stops_at_first_failure unit (stdio_fail_at 0 (-5))
                    MU_LOG_LEVEL_WARN
                    (world_with (Some addr_mu_log_stdout_fn) MU_LOG_LEVEL_INFO
                       [] tt)
                    "WARN" eq_refl eq_refl)
             "Hello, %s!" [Vstr "world"] [] (Printf "%5s: " [Vstr "WARN"]) (-5)
             [(Vprintf "Hello, %s!" [Vstr "world"], 0); (Printf newline [], 0)]
             eq_refl).
    + intros c' n' [].
    + lia.
Defined.

(** X1: when no stream call fails, the Simple sink makes its four calls
    in order (the level name, the separator, the message, the newline)
    and returns what the last [fputs] returned. *)
Theorem simple_stdout_fn_all_succeed (U : Type)
  (stdio_ret : stdio_log -> stdio_call -> Z) (L : mu_log_level_t)
  (message : string) (w : world U) (name : string) :
  (forall h c, 0 <= stdio_ret h c) ->
  fst (mu_log_will_log L w) = Ok true ->
  mu_log_level_name L = Ok name ->
  exists n1 n2 n3 n4 : Z,
    stdout_calls (snd (Simple.mu_log_stdout_fn stdio_ret L message w)) =
      stdout_calls w ++
      [(Fputs name, n1); (Fputs ": ", n2); (Fputs message, n3);
       (Fputs newline, n4)] /\
    fst (Simple.mu_log_stdout_fn stdio_ret L message w) = Ok n4.
Proof.
  intros Hs Hw Hn.
  rewrite (simple_stdout_fn_cases U stdio_ret L message w name Hw Hn).
  cbv zeta. sign_cases;
    try (match goal with
         | E : stdio_ret ?h ?c < 0 |- _ => specialize (Hs h c); lia
         end).
  cbn [fst snd]. rewrite ?record_call_calls, <- ?app_assoc. cbn [app].
  do 4 eexists. split; reflexivity.
Qed.

Lemma stdio_chars_nonneg (h : stdio_log) (c : stdio_call) : 0 <= stdio_chars h c.
Proof. destruct c; simpl; lia. Qed.

Lemma simple_stdout_fn_all_succeed_witness :
  exists n1 n2 n3 n4 : Z,
    stdout_calls
      (snd (Simple.mu_log_stdout_fn stdio_chars MU_LOG_LEVEL_ERROR "Hello"
              (world_with (Some addr_mu_log_stdout_fn) MU_LOG_LEVEL_INFO [] tt))) =
      [] ++
      [(Fputs "ERROR", n1); (Fputs ": ", n2); (Fputs "Hello", n3);
       (Fputs newline, n4)] /\
    fst (Simple.mu_log_stdout_fn stdio_chars MU_LOG_LEVEL_ERROR "Hello"
           (world_with (Some addr_mu_log_stdout_fn) MU_LOG_LEVEL_INFO [] tt)) =
      Ok n4.
Proof.
  apply (simple_stdout_fn_all_succeed unit stdio_chars MU_LOG_LEVEL_ERROR
           "Hello" (world_with (Some addr_mu_log_stdout_fn) MU_LOG_LEVEL_INFO [] tt)
           "ERROR" stdio_chars_nonneg); reflexivity.
Defined.

Lemma int_add3 (a b c : Z) :
  0 <= a -> 0 <= b -> 0 <= c ->
  (a + b + c <= INT_MAX ->
   match int_add a b with
   | Ok x => int_add x c
   | Undefined => Undefined
   end = Ok (a + b + c)) /\
  (INT_MAX < a + b + c ->
   match int_add a b with
   | Ok x => int_add x c
   | Undefined => Undefined
   end = Undefined).
Proof.
  intros Ha Hb Hc. unfold int_add, INT_MIN, INT_MAX.
  destruct (Z.leb_spec (- 2 ^ 31) (a + b)); [ | lia ].
  destruct (Z.leb_spec (a + b) (2 ^ 31 - 1)); cbn [andb].
  - destruct (Z.leb_spec (- 2 ^ 31) (a + b + c)); [ | lia ].
    destruct (Z.leb_spec (a + b + c) (2 ^ 31 - 1)); cbn [andb];
      split; intros; (reflexivity || lia).
  - split; intros; (reflexivity || lia).
Qed.

(** X3: when no stream call fails, the Formatted sink makes its three
    calls in order (the padded level name with the separator, the format
    with its arguments, the newline) and returns the sum of the three
    results; the run is undefined when that sum does not fit in [int]. *)
Theorem formatted_stdout_fn_all_succeed (U : Type)
  (stdio_ret : stdio_log -> stdio_call -> Z) (L : mu_log_level_t)
  (format : string) (ap : va_list) (w : world U) (name : string) :
  (forall h c, 0 <= stdio_ret h c) ->
  fst (mu_log_will_log L w) = Ok true ->
  mu_log_level_name L = Ok name ->
  exists n1 n2 n3 : Z,
    stdout_calls (snd (Formatted.mu_log_stdout_fn stdio_ret L format ap w)) =
      stdout_calls w ++
      [(Printf "%5s: " [Vstr name], n1); (Vprintf format ap, n2);
       (Printf newline [], n3)] /\
    (n1 + n2 + n3 <= INT_MAX ->
     fst (Formatted.mu_log_stdout_fn stdio_ret L format ap w) =
       Ok (n1 + n2 + n3)) /\
    (INT_MAX < n1 + n2 + n3 ->
     fst (Formatted.mu_log_stdout_fn stdio_ret L format ap w) = Undefined).
Proof.
  intros Hs Hw Hn.
  rewrite (formatted_stdout_fn_cases U stdio_ret L format ap w name Hw Hn).
  cbv zeta. sign_cases;
    try (match goal with
         | E : stdio_ret ?h ?c < 0 |- _ => specialize (Hs h c); lia
         end).
  cbn [fst snd]. rewrite ?record_call_calls, <- ?app_assoc in *.
  cbn [app] in *.
  do 3 eexists. split; [ reflexivity | ].
  apply int_add3; assumption.
Qed.

Lemma formatted_stdout_fn_all_succeed_witness :
  exists n1 n2 n3 : Z,
    stdout_calls
      (snd (Formatted.mu_log_stdout_fn stdio_fake MU_LOG_LEVEL_INFO "Hello, %s!"
              [Vstr "world"]
              (world_with (Some addr_mu_log_stdout_fn) MU_LOG_LEVEL_INFO [] tt))) =
      [] ++
      [(Printf "%5s: " [Vstr "INFO"], n1);
       (Vprintf "Hello, %s!" [Vstr "world"], n2);
       (Printf newline [], n3)] /\
    (n1 + n2 + n3 <= INT_MAX ->
     fst (Formatted.mu_log_stdout_fn stdio_fake MU_LOG_LEVEL_INFO "Hello, %s!"
            [Vstr "world"]
            (world_with (Some addr_mu_log_stdout_fn) MU_LOG_LEVEL_INFO [] tt)) =
       Ok (n1 + n2 + n3)) /\
    (INT_MAX < n1 + n2 + n3 ->
     fst (Formatted.mu_log_stdout_fn stdio_fake MU_LOG_LEVEL_INFO "Hello, %s!"
            [Vstr "world"]
            (world_with (Some addr_mu_log_stdout_fn) MU_LOG_LEVEL_INFO [] tt)) =
       Undefined).
Proof.
  apply (formatted_stdout_fn_all_succeed unit stdio_fake MU_LOG_LEVEL_INFO
           "Hello, %s!" [Vstr "world"]
           (world_with (Some addr_mu_log_stdout_fn) MU_LOG_LEVEL_INFO [] tt)
           "INFO").
  - intros h c. unfold stdio_fake. lia.
  - reflexivity.
  - reflexivity.
Defined.

(** C3 (the code at the failing input): with [mu_log_stdout_fn] installed
    at threshold INFO and a stream whose [fputs] reports the characters it
    wrote, the Simple sink called on INFO and the message of the test
    makes the four writes in order, which wrote 4, 2, 13 and 1 characters,
    20 in all, and returns 1, the value of the last [fputs]. *)
Theorem simple_stdout_fn_returns_last_write :
  let w := world_with (Some addr_mu_log_stdout_fn) MU_LOG_LEVEL_INFO [] tt in
  let run :=
    Simple.mu_log_stdout_fn stdio_chars MU_LOG_LEVEL_INFO "Hello, world!" w in
  fst (mu_log_will_log MU_LOG_LEVEL_INFO w) = Ok true /\
  stdout_calls (snd run) =
    [(Fputs "INFO", 4); (Fputs ": ", 2); (Fputs "Hello, world!", 13);
     (Fputs newline, 1)] /\
  fold_right Z.add 0 (map snd (stdout_calls (snd run))) = 20 /\
  fst run = Ok 1.
Proof. cbv zeta. repeat split. Qed.

Example simple_stdout_fn_fake_stream :
  let w := world_with (Some addr_mu_log_stdout_fn) MU_LOG_LEVEL_INFO [] tt in
  Simple.mu_log_stdout_fn stdio_fake MU_LOG_LEVEL_INFO "Hello, world!" w =
  (Ok 0,
   world_with (Some addr_mu_log_stdout_fn) MU_LOG_LEVEL_INFO
     [(Fputs "INFO", 0); (Fputs ": ", 0); (Fputs "Hello, world!", 0);
      (Fputs newline, 0)] tt).
Proof. reflexivity. Qed.

Example simple_stdout_fn_third_write_fails :
  let w := world_with (Some addr_mu_log_stdout_fn) MU_LOG_LEVEL_INFO [] tt in
  Simple.mu_log_stdout_fn (stdio_fail_at 2 (-1)) MU_LOG_LEVEL_WARN "Hello" w =
  (Ok (-1),
   world_with (Some addr_mu_log_stdout_fn) MU_LOG_LEVEL_INFO
     [(Fputs "WARN", 0); (Fputs ": ", 0); (Fputs "Hello", -1)] tt).
Proof. reflexivity. Qed.

Example simple_stdout_fn_last_write_fails :
  let w := world_with (Some addr_mu_log_stdout_fn) MU_LOG_LEVEL_INFO [] tt in
  Simple.mu_log_stdout_fn (stdio_fail_at 3 (-1)) MU_LOG_LEVEL_WARN "Hello" w =
  (Ok (-1),
   world_with (Some addr_mu_log_stdout_fn) MU_LOG_LEVEL_INFO
     [(Fputs "WARN", 0); (Fputs ": ", 0); (Fputs "Hello", 0);
      (Fputs newline, -1)] tt).
Proof. reflexivity. Qed.

Example formatted_stdout_fn_second_write_fails :
  let w := world_with (Some addr_mu_log_stdout_fn) MU_LOG_LEVEL_INFO [] tt in
  Formatted.mu_log_stdout_fn (stdio_fail_at 1 (-5)) MU_LOG_LEVEL_INFO
    "Hello, %s!" [Vstr "world"] w =
  (Ok (-5),
   world_with (Some addr_mu_log_stdout_fn) MU_LOG_LEVEL_INFO
     [(Printf "%5s: " [Vstr "INFO"], 0);
      (Vprintf "Hello, %s!" [Vstr "world"], -5)] tt).
Proof. reflexivity. Qed.

Example formatted_stdout_fn_fake_stream :
  let w := world_with (Some addr_mu_log_stdout_fn) MU_LOG_LEVEL_INFO [] tt in
  Formatted.mu_log_stdout_fn stdio_fake MU_LOG_LEVEL_INFO
    "Hello, %s!" [Vstr "world"] w =
  (Ok 0,
   world_with (Some addr_mu_log_stdout_fn) MU_LOG_LEVEL_INFO
     [(Printf "%5s: " [Vstr "INFO"], 0);
      (Vprintf "Hello, %s!" [Vstr "world"], 0);
      (Printf newline [], 0)] tt).
Proof. reflexivity. Qed.

(* ********************************************************************** *)
(** ** The dispatch [mu_log] *)

Lemma simple_mu_log_null (U : Type) (stdio_ret : stdio_log -> stdio_call -> Z)
  (user_fn : nat -> mu_log_level_t -> string -> M U Z)
  (L : mu_log_level_t) (message : string) (w : world U) :
  log_fn (s_logger w) = NULL ->
  Simple.mu_log stdio_ret user_fn L message w = (Undefined, w).
Proof.
  intros E. unfold Simple.mu_log, bind, get_logger. rewrite E. reflexivity.
Qed.

Lemma formatted_mu_log_null (U : Type)
  (stdio_ret : stdio_log -> stdio_call -> Z)
  (user_fn : nat -> mu_log_level_t -> string -> va_list -> M U Z)
  (L : mu_log_level_t) (format : string) (args : list c_value)
  (w : world U) :
  log_fn (s_logger w) = NULL ->
  Formatted.mu_log stdio_ret user_fn L format args w = (Undefined, w).
Proof.
  intros E. unfold Formatted.mu_log, bind, get_logger. rewrite E. reflexivity.
Qed.

Lemma simple_mu_log_installed (U : Type)
  (stdio_ret : stdio_log -> stdio_call -> Z)
  (user_fn : nat -> mu_log_level_t -> string -> M U Z)
  (L : mu_log_level_t) (message : string) (w : world U) (f : fn_addr) :
  log_fn (s_logger w) = Some f ->
  Simple.mu_log stdio_ret user_fn L message w =
  (discard (fst (Simple.call_fn stdio_ret user_fn f L message w)),
   snd (Simple.call_fn stdio_ret user_fn f L message w)).
Proof.
  intros E. unfold Simple.mu_log, bind, get_logger. rewrite E.
  destruct (Simple.call_fn stdio_ret user_fn f L message w) as [[r | ] w'];
    reflexivity.
Qed.

Lemma formatted_mu_log_installed (U : Type)
  (stdio_ret : stdio_log -> stdio_call -> Z)
  (user_fn : nat -> mu_log_level_t -> string -> va_list -> M U Z)
  (L : mu_log_level_t) (format : string) (args : list c_value)
  (w : world U) (f : fn_addr) :
  log_fn (s_logger w) = Some f ->
  Formatted.mu_log stdio_ret user_fn L format args w =
  (discard (fst (Formatted.call_fn stdio_ret user_fn f L format args w)),
   snd (Formatted.call_fn stdio_ret user_fn f L format args w)).
Proof.
  intros E. unfold Formatted.mu_log, bind, get_logger. rewrite E.
  destruct (Formatted.call_fn stdio_ret user_fn f L format args w)
    as [[r | ] w']; reflexivity.
Qed.

(** C1 (what the code does): with no function installed, [mu_log] of
    either mode calls through the null pointer: at every level, message,
    threshold and history the run is undefined instead of returning. *)
Theorem mu_log_null_fn_undefined (U : Type)
  (stdio_ret : stdio_log -> stdio_call -> Z)
  (user_s : nat -> mu_log_level_t -> string -> M U Z)
  (user_f : nat -> mu_log_level_t -> string -> va_list -> M U Z)
  (L t : mu_log_level_t) (out : stdio_log) (u : U) :
  (forall message : string,
     Simple.mu_log stdio_ret user_s L message (world_with NULL t out u) =
     (Undefined, world_with NULL t out u)) /\
  (forall (format : string) (args : list c_value),
     Formatted.mu_log stdio_ret user_f L format args (world_with NULL t out u) =
     (Undefined, world_with NULL t out u)).
Proof.
  split; intros.
  - now apply simple_mu_log_null.
  - now apply formatted_mu_log_null.
Qed.

Example mu_log_fatal_at_process_start :
  Simple.mu_log stdio_fake SimpleTest.user_fn MU_LOG_LEVEL_FATAL "x"
    (world_init 0%nat) = (Undefined, world_init 0%nat).
Proof. reflexivity. Qed.

(** C2: with a function installed, [mu_log] of either mode is one call
    of that function on the level and the message (or the format and
    its arguments) it was given, in the world it was called in, whatever
    the threshold; the [int] the function returns is dropped.  This holds
    for a function of the embedding program and for [mu_log_stdout_fn]. *)
Theorem mu_log_forwards_once (U : Type)
  (stdio_ret : stdio_log -> stdio_call -> Z)
  (user_s : nat -> mu_log_level_t -> string -> M U Z)
  (user_f : nat -> mu_log_level_t -> string -> va_list -> M U Z)
  (L t : mu_log_level_t) (out : stdio_log) (u : U) :
  (forall (n : nat) (message : string),
     Simple.mu_log stdio_ret user_s L message
       (world_with (Some (addr_user_fn n)) t out u) =
     (discard (fst (user_s n L message
                      (world_with (Some (addr_user_fn n)) t out u))),
      snd (user_s n L message (world_with (Some (addr_user_fn n)) t out u)))) /\
  (forall message : string,
     Simple.mu_log stdio_ret user_s L message
       (world_with (Some addr_mu_log_stdout_fn) t out u) =
     (discard (fst (Simple.mu_log_stdout_fn stdio_ret L message
                      (world_with (Some addr_mu_log_stdout_fn) t out u))),
      snd (Simple.mu_log_stdout_fn stdio_ret L message
             (world_with (Some addr_mu_log_stdout_fn) t out u)))) /\
  (forall (n : nat) (format : string) (args : list c_value),
     Formatted.mu_log stdio_ret user_f L format args
       (world_with (Some (addr_user_fn n)) t out u) =
     (discard (fst (user_f n L format args
                      (world_with (Some (addr_user_fn n)) t out u))),
      snd (user_f n L format args
             (world_with (Some (addr_user_fn n)) t out u)))) /\
  (forall (format : string) (args : list c_value),
     Formatted.mu_log stdio_ret user_f L format args
       (world_with (Some addr_mu_log_stdout_fn) t out u) =
     (discard (fst (Formatted.mu_log_stdout_fn stdio_ret L format args
                      (world_with (Some addr_mu_log_stdout_fn) t out u))),
      snd (Formatted.mu_log_stdout_fn stdio_ret L format args
             (world_with (Some addr_mu_log_stdout_fn) t out u)))).
Proof.
  repeat split; intros.
  - now rewrite (simple_mu_log_installed U stdio_ret user_s L message _
                   (addr_user_fn n)).
  - now rewrite (simple_mu_log_installed U stdio_ret user_s L message _
                   addr_mu_log_stdout_fn).
  - now rewrite (formatted_mu_log_installed U stdio_ret user_f L format args _
                   (addr_user_fn n)).
  - now rewrite (formatted_mu_log_installed U stdio_ret user_f L format args _
                   addr_mu_log_stdout_fn).
Qed.

(** [test_mu_log_filters_by_level]: at threshold WARN the trampoline is
    entered by both calls, and the fake it guards is called once. *)
Example simple_filters_by_level :
  Simple.run_ops stdio_fake SimpleTest.user_fn
    [Simple.op_set_threshold MU_LOG_LEVEL_WARN;
     Simple.op_log MU_LOG_LEVEL_INFO "This should not be logged.";
     Simple.op_log MU_LOG_LEVEL_ERROR "This should be logged."]
    SimpleTest.world_setUp =
  (Ok tt, world_with (Some SimpleTest.addr_test_log_fn) MU_LOG_LEVEL_WARN [] 1%nat).
Proof. reflexivity. Qed.

Example formatted_filters_by_level :
  Formatted.run_ops stdio_fake FormattedTest.user_fn
    [Formatted.op_set_threshold MU_LOG_LEVEL_WARN;
     Formatted.op_log MU_LOG_LEVEL_INFO "This should not be logged: %d" [Vint 42];
     Formatted.op_log MU_LOG_LEVEL_ERROR "This should be logged: %d" [Vint 99]]
    FormattedTest.world_setUp =
  (Ok tt,
   world_with (Some FormattedTest.addr_test_log_fn) MU_LOG_LEVEL_WARN [] 1%nat).
Proof. reflexivity. Qed.

(* ********************************************************************** *)
(** ** The invariant of the logger state *)

(** The invariant: the threshold is one of the six defined levels. *)
Lemma threshold_init_defined (U : Type) (u : U) :
  is_defined_level (threshold (s_logger (world_init u))).
Proof. apply is_defined_level_range. simpl. unfold MU_LOG_DEFAULT_LEVEL, MU_LOG_LEVEL_INFO. lia. Qed.

Lemma run_setter_threshold (U : Type) (w : world U) (c : setter_call) :
  setter_ok c ->
  is_defined_level (threshold (s_logger w)) ->
  is_defined_level (threshold (s_logger (run_setter w c))).
Proof. destruct c; simpl; auto. Qed.

Lemma run_setters_threshold (U : Type) (cs : list setter_call) :
  Forall setter_ok cs ->
  forall w : world U,
    is_defined_level (threshold (s_logger w)) ->
    is_defined_level (threshold (s_logger (run_setters cs w))).
Proof.
  induction 1 as [ | c cs Hc _ IH]; intros w Hw; simpl.
  - exact Hw.
  - apply IH. now apply run_setter_threshold.
Qed.

Lemma via_setters_threshold (U : Type) (w w' : world U) :
  via_setters w w' ->
  is_defined_level (threshold (s_logger w)) ->
  is_defined_level (threshold (s_logger w')).
Proof.
  intros [cs [Hok E]] Hw. rewrite E. now apply run_setters_threshold.
Qed.

Lemma via_setters_same (U : Type) (w w' : world U) :
  s_logger w' = s_logger w -> via_setters w w'.
Proof. intros E. exists []. split; [ constructor | exact E ]. Qed.

Lemma simple_stdout_fn_logger (U : Type)
  (stdio_ret : stdio_log -> stdio_call -> Z) (L : mu_log_level_t)
  (message : string) (w : world U) :
  s_logger (snd (Simple.mu_log_stdout_fn stdio_ret L message w)) = s_logger w.
Proof.
  destruct (will_log_bool U w L) as [Hw | Hw].
  - destruct (mu_log_level_name L) as [name | ] eqn:Hn.
    + rewrite (simple_stdout_fn_cases U stdio_ret L message w name Hw Hn).
      cbv zeta. sign_cases; reflexivity.
    + now rewrite simple_stdout_fn_no_name.
  - now rewrite simple_stdout_fn_gated.
Qed.

Lemma formatted_stdout_fn_logger (U : Type)
  (stdio_ret : stdio_log -> stdio_call -> Z) (L : mu_log_level_t)
  (format : string) (ap : va_list) (w : world U) :
  s_logger (snd (Formatted.mu_log_stdout_fn stdio_ret L format ap w)) =
  s_logger w.
Proof.
  destruct (will_log_bool U w L) as [Hw | Hw].
  - destruct (mu_log_level_name L) as [name | ] eqn:Hn.
    + rewrite (formatted_stdout_fn_cases U stdio_ret L format ap w name Hw Hn).
      cbv zeta. sign_cases; reflexivity.
    + now rewrite formatted_stdout_fn_no_name.
  - now rewrite formatted_stdout_fn_gated.
Qed.

Lemma bind_ret_tt_world (U A : Type) (m : M U A) (w : world U) :
  snd (bind m (fun _ => ret tt) w) = snd (m w).
Proof. unfold bind, ret. destruct (m w) as [[a | ] w']; reflexivity. Qed.

Section Invariant.

Variable U : Type.
Variable stdio_ret : stdio_log -> stdio_call -> Z.
Variable user_s : nat -> mu_log_level_t -> string -> M U Z.
Variable user_f : nat -> mu_log_level_t -> string -> va_list -> M U Z.

(** Functions of the embedding program reach the static [s_logger] only
    through the setters, which they call with defined levels. *)
Hypothesis user_s_setters :
  forall n L message w, via_setters w (snd (user_s n L message w)).
Hypothesis user_f_setters :
  forall n L format ap w, via_setters w (snd (user_f n L format ap w)).

Lemma simple_mu_log_via_setters (L : mu_log_level_t) (message : string)
  (w : world U) :
  via_setters w (snd (Simple.mu_log stdio_ret user_s L message w)).
Proof.
  destruct (log_fn (s_logger w)) as [f | ] eqn:E.
  - rewrite (simple_mu_log_installed U stdio_ret user_s L message w f E).
    cbn [snd]. destruct f as [ | n]; cbn [Simple.call_fn].
    + apply via_setters_same, simple_stdout_fn_logger.
    + apply user_s_setters.
  - rewrite simple_mu_log_null by exact E. now apply via_setters_same.
Qed.

Lemma formatted_mu_log_via_setters (L : mu_log_level_t) (format : string)
  (args : list c_value) (w : world U) :
  via_setters w (snd (Formatted.mu_log stdio_ret user_f L format args w)).
Proof.
  destruct (log_fn (s_logger w)) as [f | ] eqn:E.
  - rewrite (formatted_mu_log_installed U stdio_ret user_f L format args w f E).
    cbn [snd]. destruct f as [ | n]; cbn [Formatted.call_fn].
    + apply via_setters_same, formatted_stdout_fn_logger.
    + apply user_f_setters.
  - rewrite formatted_mu_log_null by exact E. now apply via_setters_same.
Qed.

Lemma simple_exec_op_reads (o : Simple.op) (w : world U) :
  simple_op_reads o = true ->
  s_logger (snd (Simple.exec_op stdio_ret user_s o w)) = s_logger w.
Proof.
  destruct o; simpl; intros H; try discriminate; try reflexivity.
  - unfold bind, lift, ret. destruct (mu_log_level_name level); reflexivity.
  - rewrite bind_ret_tt_world. apply simple_stdout_fn_logger.
Qed.

Lemma formatted_exec_op_reads (o : Formatted.op) (w : world U) :
  formatted_op_reads o = true ->
  s_logger (snd (Formatted.exec_op stdio_ret user_f o w)) = s_logger w.
Proof.
  destruct o; simpl; intros H; try discriminate; try reflexivity.
  - unfold bind, lift, ret. destruct (mu_log_level_name level); reflexivity.
  - rewrite bind_ret_tt_world. apply formatted_stdout_fn_logger.
Qed.

Lemma simple_exec_op_threshold (o : Simple.op) (w : world U) :
  simple_op_ok o ->
  is_defined_level (threshold (s_logger w)) ->
  is_defined_level
    (threshold (s_logger (snd (Simple.exec_op stdio_ret user_s o w)))).
Proof.
  intros Hok Hw.
  destruct (simple_op_reads o) eqn:R.
  - now rewrite simple_exec_op_reads.
  - destruct o; try discriminate; simpl in *.
    + exact Hw.
    + exact Hok.
    + eapply via_setters_threshold; [ apply simple_mu_log_via_setters | exact Hw ].
Qed.

Lemma formatted_exec_op_threshold (o : Formatted.op) (w : world U) :
  formatted_op_ok o ->
  is_defined_level (threshold (s_logger w)) ->
  is_defined_level
    (threshold (s_logger (snd (Formatted.exec_op stdio_ret user_f o w)))).
Proof.
  intros Hok Hw.
  destruct (formatted_op_reads o) eqn:R.
  - now rewrite formatted_exec_op_reads.
  - destruct o; try discriminate; simpl in *.
    + exact Hw.
    + exact Hok.
    + eapply via_setters_threshold;
        [ apply formatted_mu_log_via_setters | exact Hw ].
Qed.

Lemma simple_run_ops_threshold (ops : list Simple.op) :
  Forall simple_op_ok ops ->
  forall w : world U,
    is_defined_level (threshold (s_logger w)) ->
    is_defined_level
      (threshold (s_logger (snd (Simple.run_ops stdio_ret user_s ops w)))).
Proof.
  induction 1 as [ | o ops Ho _ IH]; intros w Hw; simpl.
  - exact Hw.
  - unfold bind.
    pose proof (simple_exec_op_threshold o w Ho Hw) as Hstep.
    destruct (Simple.exec_op stdio_ret user_s o w) as [[[] | ] w'];
      simpl in Hstep.
    + now apply IH.
    + exact Hstep.
Qed.

Lemma formatted_run_ops_threshold (ops : list Formatted.op) :
  Forall formatted_op_ok ops ->
  forall w : world U,
    is_defined_level (threshold (s_logger w)) ->
    is_defined_level
      (threshold (s_logger (snd (Formatted.run_ops stdio_ret user_f ops w)))).
Proof.
  induction 1 as [ | o ops Ho _ IH]; intros w Hw; simpl.
  - exact Hw.
  - unfold bind.
    pose proof (formatted_exec_op_threshold o w Ho Hw) as Hstep.
    destruct (Formatted.exec_op stdio_ret user_f o w) as [[[] | ] w'];
      simpl in Hstep.
    + now apply IH.
    + exact Hstep.
Qed.

End Invariant.

Lemma simple_mu_log_own_code (U : Type)
  (stdio_ret : stdio_log -> stdio_call -> Z)
  (user_s : nat -> mu_log_level_t -> string -> M U Z)
  (L : mu_log_level_t) (message : string) (w : world U) :
  (forall n, log_fn (s_logger w) <> Some (addr_user_fn n)) ->
  s_logger (snd (Simple.mu_log stdio_ret user_s L message w)) = s_logger w.
Proof.
  intros Hno. destruct (log_fn (s_logger w)) as [[ | n] | ] eqn:E.
  - rewrite (simple_mu_log_installed U stdio_ret user_s L message w _ E).
    cbn [snd Simple.call_fn]. apply simple_stdout_fn_logger.
  - now destruct (Hno n).
  - now rewrite simple_mu_log_null.
Qed.

Lemma formatted_mu_log_own_code (U : Type)
  (stdio_ret : stdio_log -> stdio_call -> Z)
  (user_f : nat -> mu_log_level_t -> string -> va_list -> M U Z)
  (L : mu_log_level_t) (format : string) (args : list c_value)
  (w : world U) :
  (forall n, log_fn (s_logger w) <> Some (addr_user_fn n)) ->
  s_logger (snd (Formatted.mu_log stdio_ret user_f L format args w)) =
  s_logger w.
Proof.
  intros Hno. destruct (log_fn (s_logger w)) as [[ | n] | ] eqn:E.
  - rewrite (formatted_mu_log_installed U stdio_ret user_f L format args w _ E).
    cbn [snd Formatted.call_fn]. apply formatted_stdout_fn_logger.
  - now destruct (Hno n).
  - now rewrite formatted_mu_log_null.
Qed.

Lemma simple_mu_log_user_code (U : Type)
  (stdio_ret : stdio_log -> stdio_call -> Z)
  (user_s : nat -> mu_log_level_t -> string -> M U Z)
  (n : nat) (L : mu_log_level_t) (message : string) (w : world U) :
  log_fn (s_logger w) = Some (addr_user_fn n) ->
  snd (Simple.mu_log stdio_ret user_s L message w) =
  snd (user_s n L message w).
Proof.
  intros E.
  now rewrite (simple_mu_log_installed U stdio_ret user_s L message w _ E).
Qed.

Lemma formatted_mu_log_user_code (U : Type)
  (stdio_ret : stdio_log -> stdio_call -> Z)
  (user_f : nat -> mu_log_level_t -> string -> va_list -> M U Z)
  (n : nat) (L : mu_log_level_t) (format : string) (args : list c_value)
  (w : world U) :
  log_fn (s_logger w) = Some (addr_user_fn n) ->
  snd (Formatted.mu_log stdio_ret user_f L format args w) =
  snd (user_f n L format args w).
Proof.
  intros E.
  now rewrite (formatted_mu_log_installed U stdio_ret user_f L format args w
                 _ E).
Qed.

Lemma simple_exec_op_no_setter (U : Type)
  (stdio_ret : stdio_log -> stdio_call -> Z)
  (user_s : nat -> mu_log_level_t -> string -> M U Z) :
  (forall n L message w, s_logger (snd (user_s n L message w)) = s_logger w) ->
  forall (o : Simple.op) (w : world U),
    simple_op_is_setter o = false ->
    s_logger (snd (Simple.exec_op stdio_ret user_s o w)) = s_logger w.
Proof.
  intros Huser o w Hno.
  destruct (simple_op_reads o) eqn:R.
  - now apply simple_exec_op_reads.
  - destruct o; try discriminate. cbn [Simple.exec_op].
    destruct (log_fn (s_logger w)) as [[ | n] | ] eqn:E.
    + apply simple_mu_log_own_code. intros n. rewrite E. discriminate.
    + rewrite (simple_mu_log_user_code U stdio_ret user_s n level message w E).
      apply Huser.
    + apply simple_mu_log_own_code. intros n. rewrite E. discriminate.
Qed.

Lemma formatted_exec_op_no_setter (U : Type)
  (stdio_ret : stdio_log -> stdio_call -> Z)
  (user_f : nat -> mu_log_level_t -> string -> va_list -> M U Z) :
  (forall n L format ap w,
     s_logger (snd (user_f n L format ap w)) = s_logger w) ->
  forall (o : Formatted.op) (w : world U),
    formatted_op_is_setter o = false ->
    s_logger (snd (Formatted.exec_op stdio_ret user_f o w)) = s_logger w.
Proof.
  intros Huser o w Hno.
  destruct (formatted_op_reads o) eqn:R.
  - now apply formatted_exec_op_reads.
  - destruct o; try discriminate. cbn [Formatted.exec_op].
    destruct (log_fn (s_logger w)) as [[ | n] | ] eqn:E.
    + apply formatted_mu_log_own_code. intros n. rewrite E. discriminate.
    + rewrite (formatted_mu_log_user_code U stdio_ret user_f n level format
                 args w E).
      apply Huser.
    + apply formatted_mu_log_own_code. intros n. rewrite E. discriminate.
Qed.

Lemma simple_run_ops_no_setter (U : Type)
  (stdio_ret : stdio_log -> stdio_call -> Z)
  (user_s : nat -> mu_log_level_t -> string -> M U Z) :
  (forall n L message w, s_logger (snd (user_s n L message w)) = s_logger w) ->
  forall (ops : list Simple.op) (w : world U),
    forallb (fun o => negb (simple_op_is_setter o)) ops = true ->
    s_logger (snd (Simple.run_ops stdio_ret user_s ops w)) = s_logger w.
Proof.
  intros Huser ops. induction ops as [ | o ops IH]; intros w Hall.
  - reflexivity.
  - cbn [forallb] in Hall. apply andb_true_iff in Hall.
    destruct Hall as [Ho Hops]. apply negb_true_iff in Ho.
    pose proof (simple_exec_op_no_setter U stdio_ret user_s Huser o w Ho)
      as Hstep.
    cbn [Simple.run_ops]. unfold bind.
    destruct (Simple.exec_op stdio_ret user_s o w) as [[[] | ] w1];
      cbn [snd] in Hstep.
    + rewrite (IH w1 Hops). exact Hstep.
    + exact Hstep.
Qed.

Lemma formatted_run_ops_no_setter (U : Type)
  (stdio_ret : stdio_log -> stdio_call -> Z)
  (user_f : nat -> mu_log_level_t -> string -> va_list -> M U Z) :
  (forall n L format ap w,
     s_logger (snd (user_f n L format ap w)) = s_logger w) ->
  forall (ops : list Formatted.op) (w : world U),
    forallb (fun o => negb (formatted_op_is_setter o)) ops = true ->
    s_logger (snd (Formatted.run_ops stdio_ret user_f ops w)) = s_logger w.
Proof.
  intros Huser ops. induction ops as [ | o ops IH]; intros w Hall.
  - reflexivity.
  - cbn [forallb] in Hall. apply andb_true_iff in Hall.
    destruct Hall as [Ho Hops]. apply negb_true_iff in Ho.
    pose proof (formatted_exec_op_no_setter U stdio_ret user_f Huser o w Ho)
      as Hstep.
    cbn [Formatted.run_ops]. unfold bind.
    destruct (Formatted.exec_op stdio_ret user_f o w) as [[[] | ] w1];
      cbn [snd] in Hstep.
    + rewrite (IH w1 Hops). exact Hstep.
    + exact Hstep.
Qed.

(** C8: the logger state starts with no function installed and the
    threshold INFO.  When every call of [mu_log_set_threshold], by the
    program or by a function it installed, passes one of the six defined
    levels, the threshold is one of the six defined levels after every
    sequence of operations, in either mode.  Only the two setters change
    the logger state:
    - the getters, [mu_log_will_log], [mu_log_level_name] and
      [mu_log_stdout_fn] leave it as it was;
    - [mu_log] with no function or with [mu_log_stdout_fn] installed
      leaves it as it was;
    - [mu_log] with a function of the program installed ends in exactly
      the world that function's body ends in, so it adds no change of
      its own;
    - hence, when the functions of the program call no setter, a
      sequence of operations without a setter call ends with the
      logger state it started with, the installed function included. *)
Theorem threshold_always_defined (U : Type)
  (stdio_ret : stdio_log -> stdio_call -> Z)
  (user_s : nat -> mu_log_level_t -> string -> M U Z)
  (user_f : nat -> mu_log_level_t -> string -> va_list -> M U Z) :
  (forall n L message w, via_setters w (snd (user_s n L message w))) ->
  (forall n L format ap w, via_setters w (snd (user_f n L format ap w))) ->
  (forall u : U,
     log_fn (s_logger (world_init u)) = NULL /\
     threshold (s_logger (world_init u)) = MU_LOG_LEVEL_INFO) /\
  (forall (u : U) (ops : list Simple.op),
     Forall simple_op_ok ops ->
     is_defined_level
       (threshold
          (s_logger (snd (Simple.run_ops stdio_ret user_s ops (world_init u)))))) /\
  (forall (u : U) (ops : list Formatted.op),
     Forall formatted_op_ok ops ->
     is_defined_level
       (threshold
          (s_logger
             (snd (Formatted.run_ops stdio_ret user_f ops (world_init u)))))) /\
  (forall (o : Simple.op) (w : world U),
     simple_op_reads o = true ->
     s_logger (snd (Simple.exec_op stdio_ret user_s o w)) = s_logger w) /\
  (forall (o : Formatted.op) (w : world U),
     formatted_op_reads o = true ->
     s_logger (snd (Formatted.exec_op stdio_ret user_f o w)) = s_logger w) /\
  (forall (L : mu_log_level_t) (message : string) (w : world U),
     (forall n, log_fn (s_logger w) <> Some (addr_user_fn n)) ->
     s_logger (snd (Simple.mu_log stdio_ret user_s L message w)) =
     s_logger w) /\
  (forall (L : mu_log_level_t) (format : string) (args : list c_value)
          (w : world U),
     (forall n, log_fn (s_logger w) <> Some (addr_user_fn n)) ->
     s_logger (snd (Formatted.mu_log stdio_ret user_f L format args w)) =
     s_logger w) /\
  (forall (n : nat) (L : mu_log_level_t) (message : string) (w : world U),
     log_fn (s_logger w) = Some (addr_user_fn n) ->
     snd (Simple.mu_log stdio_ret user_s L message w) =
     snd (user_s n L message w)) /\
  (forall (n : nat) (L : mu_log_level_t) (format : string)
          (args : list c_value) (w : world U),
     log_fn (s_logger w) = Some (addr_user_fn n) ->
     snd (Formatted.mu_log stdio_ret user_f L format args w) =
     snd (user_f n L format args w)) /\
  ((forall n L message w,
      s_logger (snd (user_s n L message w)) = s_logger w) ->
   forall (ops : list Simple.op) (w : world U),
     forallb (fun o => negb (simple_op_is_setter o)) ops = true ->
     s_logger (snd (Simple.run_ops stdio_ret user_s ops w)) = s_logger w) /\
  ((forall n L format ap w,
      s_logger (snd (user_f n L format ap w)) = s_logger w) ->
   forall (ops : list Formatted.op) (w : world U),
     forallb (fun o => negb (formatted_op_is_setter o)) ops = true ->
     s_logger (snd (Formatted.run_ops stdio_ret user_f ops w)) = s_logger w).
Proof.
  intros Hs Hf.
  split; [ intros u; split; reflexivity | ].
  split.
  { intros u ops Hops.
    apply (simple_run_ops_threshold U stdio_ret user_s Hs ops Hops).
    apply threshold_init_defined. }
  split.
  { intros u ops Hops.
    apply (formatted_run_ops_threshold U stdio_ret user_f Hf ops Hops).
    apply threshold_init_defined. }
  split; [ intros o w; apply simple_exec_op_reads | ].
  split; [ intros o w; apply formatted_exec_op_reads | ].
  split; [ intros L message w; apply simple_mu_log_own_code | ].
  split; [ intros L format args w; apply formatted_mu_log_own_code | ].
  split; [ intros n L message w; apply simple_mu_log_user_code | ].
  split; [ intros n L format args w; apply formatted_mu_log_user_code | ].
  split.
  - apply simple_run_ops_no_setter.
  - apply formatted_run_ops_no_setter.
Qed.

Lemma simple_test_log_fn_logger (n : nat) (L : mu_log_level_t)
  (message : string) (w : world nat) :
  s_logger (snd (SimpleTest.user_fn n L message w)) = s_logger w.
Proof.
  unfold SimpleTest.user_fn, SimpleTest.test_log_fn, bind.
  rewrite will_log_run.
  destruct (negb (is_null (log_fn (s_logger w))) && (L >=? threshold (s_logger w)));
    reflexivity.
Qed.

Lemma formatted_test_log_fn_logger (n : nat) (L : mu_log_level_t)
  (format : string) (ap : va_list) (w : world nat) :
  s_logger (snd (FormattedTest.user_fn n L format ap w)) = s_logger w.
Proof.
  unfold FormattedTest.user_fn, FormattedTest.test_log_fn, bind.
  rewrite will_log_run.
  destruct (negb (is_null (log_fn (s_logger w))) && (L >=? threshold (s_logger w)));
    reflexivity.
Qed.

Lemma threshold_always_defined_witness :
  (forall n L message w,
     via_setters w (snd (SimpleTest.user_fn n L message w))) /\
  (forall n L format ap w,
     via_setters w (snd (FormattedTest.user_fn n L format ap w))) /\
  Forall simple_op_ok
    [Simple.op_set_fn (Some SimpleTest.addr_test_log_fn);
     Simple.op_set_threshold MU_LOG_LEVEL_WARN;
     Simple.op_log MU_LOG_LEVEL_ERROR "This should be logged.";
     Simple.op_set_fn NULL] /\
  is_defined_level
    (threshold
       (s_logger
          (snd (Simple.run_ops stdio_fake SimpleTest.user_fn
                  [Simple.op_set_fn (Some SimpleTest.addr_test_log_fn);
                   Simple.op_set_threshold MU_LOG_LEVEL_WARN;
                   Simple.op_log MU_LOG_LEVEL_ERROR "This should be logged.";
                   Simple.op_set_fn NULL]
                  (world_init 0%nat))))).
Proof.
  assert (Hs : forall n L message w,
             via_setters w (snd (SimpleTest.user_fn n L message w))).
  { intros. apply via_setters_same, simple_test_log_fn_logger. }
  assert (Hf : forall n L format ap w,
             via_setters w (snd (FormattedTest.user_fn n L format ap w))).
  { intros. apply via_setters_same, formatted_test_log_fn_logger. }
  assert (Hops : Forall simple_op_ok
            [Simple.op_set_fn (Some SimpleTest.addr_test_log_fn);
             Simple.op_set_threshold MU_LOG_LEVEL_WARN;
             Simple.op_log MU_LOG_LEVEL_ERROR "This should be logged.";
             Simple.op_set_fn NULL]).
  { repeat (apply Forall_cons || apply Forall_nil); simpl; trivial.
    apply is_defined_level_range. unfold MU_LOG_LEVEL_WARN. lia. }
  split; [ exact Hs | ]. split; [ exact Hf | ]. split; [ exact Hops | ].
  apply (threshold_always_defined nat stdio_fake SimpleTest.user_fn
           FormattedTest.user_fn Hs Hf).
  exact Hops.
Defined.

(* ********************************************************************** *)
(** ** Further properties of the predicate, the setters and the names *)

Lemma will_log_true_iff (U : Type) (w : world U) (L : mu_log_level_t) :
  fst (mu_log_will_log L w) = Ok true <->
  log_fn (s_logger w) <> NULL /\ threshold (s_logger w) <= L.
Proof.
  rewrite will_log_run. cbn [fst]. split.
  - intros H. injection H as H.
    apply andb_true_iff in H. destruct H as [Hn Hl].
    apply negb_true_iff in Hn. apply Z.geb_le in Hl. split; [ | exact Hl ].
    intros E. apply is_null_spec in E. congruence.
  - intros [Hn Hl]. f_equal. apply andb_true_iff. split.
    + apply negb_true_iff. destruct (is_null (log_fn (s_logger w))) eqn:E;
        [ | reflexivity ].
      apply is_null_spec in E. contradiction.
    + now apply Z.geb_le.
Qed.

Lemma will_log_false_iff (U : Type) (w : world U) (L : mu_log_level_t) :
  fst (mu_log_will_log L w) = Ok false <->
  log_fn (s_logger w) = NULL \/ L < threshold (s_logger w).
Proof.
  split.
  - intros H. destruct (log_fn (s_logger w)) as [f | ] eqn:E; [ | now left ].
    right. destruct (Z_lt_dec L (threshold (s_logger w))) as [Hlt | Hge];
      [ exact Hlt | ].
    assert (T : fst (mu_log_will_log L w) = Ok true).
    { apply will_log_true_iff. rewrite E. split; [ discriminate | lia ]. }
    congruence.
  - intros H. destruct (will_log_bool U w L) as [T | F]; [ | exact F ].
    apply will_log_true_iff in T. destruct T as [Hn Hl].
    destruct H; [ contradiction | lia ].
Qed.

(** X4: [mu_log_will_log] is monotone: when it answers true for a level,
    it answers true for every higher level, and it keeps answering true
    when the threshold is lowered with the same function installed. *)
Theorem will_log_monotone (U : Type) (w w' : world U)
  (L L' : mu_log_level_t) :
  fst (mu_log_will_log L w) = Ok true ->
  L <= L' ->
  log_fn (s_logger w') = log_fn (s_logger w) ->
  threshold (s_logger w') <= threshold (s_logger w) ->
  fst (mu_log_will_log L' w') = Ok true.
Proof.
  intros H HL Hf Ht. apply will_log_true_iff in H. destruct H as [Hn Hl].
  apply will_log_true_iff. rewrite Hf. split; [ exact Hn | lia ].
Qed.

Lemma will_log_monotone_witness :
  fst (mu_log_will_log MU_LOG_LEVEL_FATAL
         (world_with (Some addr_mu_log_stdout_fn) MU_LOG_LEVEL_DEBUG [] tt)) =
  Ok true.
Proof.
  apply (will_log_monotone unit
           (world_with (Some addr_mu_log_stdout_fn) MU_LOG_LEVEL_INFO [] tt)
           (world_with (Some addr_mu_log_stdout_fn) MU_LOG_LEVEL_DEBUG [] tt)
           MU_LOG_LEVEL_WARN MU_LOG_LEVEL_FATAL).
  - reflexivity.
  - unfold MU_LOG_LEVEL_WARN, MU_LOG_LEVEL_FATAL. lia.
  - reflexivity.
  - simpl. unfold MU_LOG_LEVEL_DEBUG, MU_LOG_LEVEL_INFO. lia.
Defined.

(** X5: how the setters act on [mu_log_will_log].  After
    [mu_log_set_threshold T] it answers true exactly for the levels from
    [T] up, provided a function is installed; after [mu_log_set_fn NULL]
    it answers false for every level; after installing a function it
    answers by the threshold alone.  A threshold above FATAL silences
    all six defined levels, a threshold at or below TRACE lets all six
    pass. *)
Theorem will_log_after_setters (U : Type) (w : world U)
  (L : mu_log_level_t) :
  (forall T : mu_log_level_t,
     fst (mu_log_will_log L (snd (mu_log_set_threshold T w))) = Ok true <->
     log_fn (s_logger w) <> NULL /\ T <= L) /\
  fst (mu_log_will_log L (snd (mu_log_set_fn NULL w))) = Ok false /\
  (forall f : fn_addr,
     fst (mu_log_will_log L (snd (mu_log_set_fn (Some f) w))) = Ok true <->
     threshold (s_logger w) <= L) /\
  (forall T : mu_log_level_t,
     MU_LOG_LEVEL_FATAL < T -> is_defined_level L ->
     fst (mu_log_will_log L (snd (mu_log_set_threshold T w))) = Ok false) /\
  (forall T : mu_log_level_t,
     T <= MU_LOG_LEVEL_TRACE -> is_defined_level L ->
     log_fn (s_logger w) <> NULL ->
     fst (mu_log_will_log L (snd (mu_log_set_threshold T w))) = Ok true).
Proof.
  split; [ | split; [ | split; [ | split ] ] ].
  - intros T. rewrite will_log_true_iff. reflexivity.
  - apply will_log_false_iff. now left.
  - intros f. rewrite will_log_true_iff. cbn. split.
    + intros [_ H]. exact H.
    + intros H. split; [ discriminate | exact H ].
  - intros T HT HL. apply is_defined_level_range in HL.
    apply will_log_false_iff. right. cbn.
    unfold MU_LOG_LEVEL_FATAL in HT. lia.
  - intros T HT HL Hn. apply is_defined_level_range in HL.
    apply will_log_true_iff. cbn. split; [ exact Hn | ].
    unfold MU_LOG_LEVEL_TRACE in HT. lia.
Qed.

(** X6: how the setters compose.  The two setters commute; of two calls
    of the same setter the later one wins; storing back the value a
    getter returned changes nothing. *)
Theorem setters_compose (U : Type) (w : world U) :
  (forall (fn : mu_log_fn) (t : mu_log_level_t),
     snd (mu_log_set_fn fn (snd (mu_log_set_threshold t w))) =
     snd (mu_log_set_threshold t (snd (mu_log_set_fn fn w)))) /\
  (forall t1 t2 : mu_log_level_t,
     snd (mu_log_set_threshold t2 (snd (mu_log_set_threshold t1 w))) =
     snd (mu_log_set_threshold t2 w)) /\
  (forall f1 f2 : mu_log_fn,
     snd (mu_log_set_fn f2 (snd (mu_log_set_fn f1 w))) =
     snd (mu_log_set_fn f2 w)) /\
  (forall t : mu_log_level_t,
     fst (mu_log_get_threshold w) = Ok t ->
     snd (mu_log_set_threshold t w) = w) /\
  (forall fn : mu_log_fn,
     fst (mu_log_get_fn w) = Ok fn ->
     snd (mu_log_set_fn fn w) = w).
Proof.
  destruct w as [[f t0] out u].
  repeat split; intros; try reflexivity.
  - cbn in H. injection H as <-. reflexivity.
  - cbn in H. injection H as <-. reflexivity.
Qed.

Lemma level_name_of_defined (v : mu_log_level_t) :
  is_defined_level v ->
  exists name, mu_log_level_name v = Ok name /\ name <> "UNKNOWN" /\
               nth_error s_level_names (Z.to_nat v) = Some name.
Proof.
  intros H. apply is_defined_level_range in H.
  assert (C : v = 0 \/ v = 1 \/ v = 2 \/ v = 3 \/ v = 4 \/ v = 5) by lia.
  destruct C as [-> | [-> | [-> | [-> | [-> | ->]]]]];
    eexists; (split; [ reflexivity | split; [ discriminate | reflexivity ] ]).
Qed.

(** X7: the display names identify the defined levels.  When a defined
    level and any other value of the level type have the same name, they
    are the same level; in particular no defined level is named
    UNKNOWN. *)
Theorem level_name_injective (v1 v2 : mu_log_level_t) :
  is_defined_level v1 ->
  in_level_range v2 ->
  mu_log_level_name v1 = mu_log_level_name v2 ->
  v1 = v2 /\ mu_log_level_name v1 <> Ok "UNKNOWN".
Proof.
  intros H1 H2 E.
  destruct (level_name_of_defined v1 H1) as [n1 [E1 [U1 _]]].
  assert (D2 : 0 <= v2 < 6).
  { destruct (Z_lt_dec v2 0) as [Hneg | Hpos];
      [ | destruct (Z_lt_dec v2 6) as [Hlt | Hge]; [ lia | ] ].
    - rewrite (level_name_unknown v2 H2) in E
        by (rewrite is_defined_level_range; lia).
      congruence.
    - rewrite (level_name_unknown v2 H2) in E
        by (rewrite is_defined_level_range; lia).
      congruence. }
  split; [ | rewrite E1; congruence ].
  apply is_defined_level_range in H1.
  assert (C1 : v1 = 0 \/ v1 = 1 \/ v1 = 2 \/ v1 = 3 \/ v1 = 4 \/ v1 = 5) by lia.
  assert (C2 : v2 = 0 \/ v2 = 1 \/ v2 = 2 \/ v2 = 3 \/ v2 = 4 \/ v2 = 5) by lia.
  destruct C1 as [-> | [-> | [-> | [-> | [-> | ->]]]]];
    destruct C2 as [-> | [-> | [-> | [-> | [-> | ->]]]]];
    try reflexivity; discriminate E.
Qed.

Lemma level_name_injective_witness :
  MU_LOG_LEVEL_WARN = 3 /\ mu_log_level_name MU_LOG_LEVEL_WARN <> Ok "UNKNOWN".
Proof.
  apply (level_name_injective MU_LOG_LEVEL_WARN 3).
  - apply is_defined_level_range. unfold MU_LOG_LEVEL_WARN. lia.
  - unfold in_level_range, INT_MIN. lia.
  - reflexivity.
Defined.

(* ********************************************************************** *)
(** ** Further properties of the default sink *)

Lemma world_eta (U : Type) (w : world U) :
  w = {| s_logger := s_logger w;
         stdout_calls := stdout_calls w ++ [];
         app_state := app_state w |}.
Proof. destruct w. cbn. now rewrite app_nil_r. Qed.

(** X8: on every level of the level type the Simple sink returns a
    value, whatever the stream answers.  It changes neither the logger
    state nor the state of the program, makes at most four stream calls,
    and its value is negative exactly when one of the calls it made
    failed. *)
Theorem simple_stdout_fn_result (U : Type)
  (stdio_ret : stdio_log -> stdio_call -> Z) (L : mu_log_level_t)
  (message : string) (w : world U) :
  in_level_range L ->
  exists (r : Z) (ws : stdio_log),
    Simple.mu_log_stdout_fn stdio_ret L message w =
    (Ok r, {| s_logger := s_logger w;
              stdout_calls := stdout_calls w ++ ws;
              app_state := app_state w |}) /\
    (List.length ws <= 4)%nat /\
    (r < 0 <-> exists c n, In (c, n) ws /\ n < 0).
Proof.
  intros HL.
  destruct (will_log_bool U w L) as [Hw | Hw].
  - destruct (level_name_total L HL) as [name Hn].
    rewrite (simple_stdout_fn_cases U stdio_ret L message w name Hw Hn).
    cbv zeta. unfold record_call. cbn [stdout_calls s_logger app_state].
    rewrite <- ?app_assoc. cbn [app].
    sign_cases; do 2 eexists; (split; [ reflexivity | ]);
      (split; [ cbn; lia | ]);
      (split; [ intros Hr; try lia; pick_failed_write
              | intros Hex; failed_write_cases; lia ]).
  - rewrite (simple_stdout_fn_gated U stdio_ret L message w Hw).
    exists 0, []. split; [ f_equal; apply world_eta | ].
    split; [ cbn; lia | ].
    split; [ lia | intros Hex; failed_write_cases ].
Qed.

Lemma simple_stdout_fn_result_witness :
  exists (r : Z) (ws : stdio_log),
    Simple.mu_log_stdout_fn (stdio_fail_at 1 (-1)) MU_LOG_LEVEL_ERROR "Hello"
      (world_with (Some addr_mu_log_stdout_fn) MU_LOG_LEVEL_INFO [] tt) =
    (Ok r, {| s_logger := {| log_fn := Some addr_mu_log_stdout_fn;
                             threshold := MU_LOG_LEVEL_INFO |};
              stdout_calls := [] ++ ws;
              app_state := tt |}) /\
    (List.length ws <= 4)%nat /\
    (r < 0 <-> exists c n, In (c, n) ws /\ n < 0).
Proof.
  apply (simple_stdout_fn_result unit (stdio_fail_at 1 (-1)) MU_LOG_LEVEL_ERROR
           "Hello"
           (world_with (Some addr_mu_log_stdout_fn) MU_LOG_LEVEL_INFO [] tt)).
  unfold in_level_range, INT_MIN, MU_LOG_LEVEL_ERROR. lia.
Defined.

(** X9: on every level of the level type the Formatted sink changes
    neither the logger state nor the state of the program and makes at
    most three stream calls.  When it returns, its value is negative
    exactly when one of the calls it made failed; its run is undefined
    only when all three calls succeeded and the sum of their results
    does not fit in [int]. *)
Theorem formatted_stdout_fn_result (U : Type)
  (stdio_ret : stdio_log -> stdio_call -> Z) (L : mu_log_level_t)
  (format : string) (ap : va_list) (w : world U) :
  in_level_range L ->
  exists ws : stdio_log,
    snd (Formatted.mu_log_stdout_fn stdio_ret L format ap w) =
      {| s_logger := s_logger w;
         stdout_calls := stdout_calls w ++ ws;
         app_state := app_state w |} /\
    (List.length ws <= 3)%nat /\
    (forall r : Z,
       fst (Formatted.mu_log_stdout_fn stdio_ret L format ap w) = Ok r ->
       (r < 0 <-> exists c n, In (c, n) ws /\ n < 0)) /\
    (fst (Formatted.mu_log_stdout_fn stdio_ret L format ap w) = Undefined ->
     List.length ws = 3%nat /\
     (forall c n, In (c, n) ws -> 0 <= n) /\
     INT_MAX < fold_right Z.add 0 (map snd ws)).
Proof.
  intros HL.
  destruct (will_log_bool U w L) as [Hw | Hw].
  - destruct (level_name_total L HL) as [name Hn].
    rewrite (formatted_stdout_fn_cases U stdio_ret L format ap w name Hw Hn).
    cbv zeta. unfold record_call. cbn [stdout_calls s_logger app_state].
    rewrite <- ?app_assoc. cbn [app].
    sign_cases.
    1-3: eexists; (split; [ reflexivity | ]); (split; [ cbn; lia | ]);
      (split; [ intros r Hr; cbn [fst] in Hr; injection Hr as <-;
                split; [ intros _; pick_failed_write
                       | intros Hex; assumption ]
              | intros Hu; discriminate Hu ]).
    eexists. split; [ reflexivity | ]. split; [ cbn; lia | ].
    cbn [fst].
    match goal with
    | |- context [int_add ?a ?b] =>
        match goal with
        | |- context [int_add _ ?c] =>
            lazymatch c with
            | b => fail
            | _ => destruct (int_add3 a b c) as [Hfit Hover];
                   [ assumption .. | ];
                   destruct (Z_le_dec (a + b + c) INT_MAX) as [Hle | Hgt]
            end
        end
    end.
    + rewrite (Hfit Hle). split.
      * intros r Hr. injection Hr as <-.
        split; [ lia | intros Hex; failed_write_cases; lia ].
      * intros Hu; discriminate Hu.
    + rewrite (Hover ltac:(lia)). split.
      * intros r Hr; discriminate Hr.
      * intros _. split; [ reflexivity | ]. split.
        -- intros c n Hin. failed_write_cases; assumption.
        -- cbn [fold_right map snd]. lia.
  - rewrite (formatted_stdout_fn_gated U stdio_ret L format ap w Hw).
    exists []. split; [ apply world_eta | ].
    split; [ cbn; lia | ]. split.
    + intros r Hr. injection Hr as <-.
      split; [ lia | intros Hex; failed_write_cases ].
    + intros Hu; discriminate Hu.
Qed.

Lemma formatted_stdout_fn_result_witness :
  exists ws : stdio_log,
    snd (Formatted.mu_log_stdout_fn (stdio_fail_at 2 (-1)) MU_LOG_LEVEL_INFO
           "Hello, %s!" [Vstr "world"]
           (world_with (Some addr_mu_log_stdout_fn) MU_LOG_LEVEL_INFO [] tt)) =
      {| s_logger := {| log_fn := Some addr_mu_log_stdout_fn;
                        threshold := MU_LOG_LEVEL_INFO |};
         stdout_calls := [] ++ ws;
         app_state := tt |} /\
    (List.length ws <= 3)%nat /\
    (forall r : Z,
       fst (Formatted.mu_log_stdout_fn (stdio_fail_at 2 (-1)) MU_LOG_LEVEL_INFO
              "Hello, %s!" [Vstr "world"]
              (world_with (Some addr_mu_log_stdout_fn) MU_LOG_LEVEL_INFO [] tt)) =
       Ok r ->
       (r < 0 <-> exists c n, In (c, n) ws /\ n < 0)) /\
    (fst (Formatted.mu_log_stdout_fn (stdio_fail_at 2 (-1)) MU_LOG_LEVEL_INFO
            "Hello, %s!" [Vstr "world"]
            (world_with (Some addr_mu_log_stdout_fn) MU_LOG_LEVEL_INFO [] tt)) =
     Undefined ->
     List.length ws = 3%nat /\
     (forall c n, In (c, n) ws -> 0 <= n) /\
     INT_MAX < fold_right Z.add 0 (map snd ws)).
Proof.
  apply (formatted_stdout_fn_result unit (stdio_fail_at 2 (-1))
           MU_LOG_LEVEL_INFO "Hello, %s!" [Vstr "world"]
           (world_with (Some addr_mu_log_stdout_fn) MU_LOG_LEVEL_INFO [] tt)).
  unfold in_level_range, INT_MIN, MU_LOG_LEVEL_INFO. lia.
Defined.

(* ********************************************************************** *)
(** ** The dispatch with the default sink installed *)

(** X10: with [mu_log_stdout_fn] installed, [mu_log] filters by the
    threshold.  Below the threshold it returns and leaves the world
    untouched, in both modes.  At or above it the first stream call is
    made with the name of the level; in Simple mode [mu_log] returns
    whatever the stream answers, a failed write included. *)
Theorem mu_log_default_sink_filters (U : Type)
  (stdio_ret : stdio_log -> stdio_call -> Z)
  (user_s : nat -> mu_log_level_t -> string -> M U Z)
  (user_f : nat -> mu_log_level_t -> string -> va_list -> M U Z)
  (L t : mu_log_level_t) (out : stdio_log) (u : U) :
  in_level_range L ->
  (L < t ->
   (forall message : string,
      Simple.mu_log stdio_ret user_s L message
        (world_with (Some addr_mu_log_stdout_fn) t out u) =
      (Ok tt, world_with (Some addr_mu_log_stdout_fn) t out u)) /\
   (forall (format : string) (args : list c_value),
      Formatted.mu_log stdio_ret user_f L format args
        (world_with (Some addr_mu_log_stdout_fn) t out u) =
      (Ok tt, world_with (Some addr_mu_log_stdout_fn) t out u))) /\
  (t <= L ->
   exists name : string,
     mu_log_level_name L = Ok name /\
     (forall message : string,
        fst (Simple.mu_log stdio_ret user_s L message
               (world_with (Some addr_mu_log_stdout_fn) t out u)) = Ok tt /\
        exists ws : stdio_log,
          stdout_calls
            (snd (Simple.mu_log stdio_ret user_s L message
                    (world_with (Some addr_mu_log_stdout_fn) t out u))) =
          out ++ (Fputs name, stdio_ret out (Fputs name)) :: ws) /\
     (forall (format : string) (args : list c_value),
        exists ws : stdio_log,
          stdout_calls
            (snd (Formatted.mu_log stdio_ret user_f L format args
                    (world_with (Some addr_mu_log_stdout_fn) t out u))) =
          out ++ (Printf "%5s: " [Vstr name],
                  stdio_ret out (Printf "%5s: " [Vstr name])) :: ws)).
Proof.
  intros HL. set (w := world_with (Some addr_mu_log_stdout_fn) t out u).
  split.
  - intros Hlt.
    assert (Hw : fst (mu_log_will_log L w) = Ok false).
    { apply will_log_false_iff. right. exact Hlt. }
    split; intros.
    + rewrite (simple_mu_log_installed U stdio_ret user_s L message w
                 addr_mu_log_stdout_fn eq_refl).
      cbn [Simple.call_fn]. now rewrite simple_stdout_fn_gated.
    + rewrite (formatted_mu_log_installed U stdio_ret user_f L format args w
                 addr_mu_log_stdout_fn eq_refl).
      cbn [Formatted.call_fn]. now rewrite formatted_stdout_fn_gated.
  - intros Hge.
    assert (Hw : fst (mu_log_will_log L w) = Ok true).
    { apply will_log_true_iff. split; [ discriminate | exact Hge ]. }
    destruct (level_name_total L HL) as [name Hn].
    exists name. split; [ exact Hn | ]. split; intros.
    + rewrite (simple_mu_log_installed U stdio_ret user_s L message w
                 addr_mu_log_stdout_fn eq_refl).
      cbn [Simple.call_fn fst snd].
      rewrite (simple_stdout_fn_cases U stdio_ret L message w name Hw Hn).
      cbv zeta. unfold record_call. cbn [stdout_calls s_logger app_state w world_with].
      rewrite <- ?app_assoc. cbn [app].
      sign_cases; (split; [ reflexivity | eexists; reflexivity ]).
    + rewrite (formatted_mu_log_installed U stdio_ret user_f L format args w
                 addr_mu_log_stdout_fn eq_refl).
      cbn [Formatted.call_fn fst snd].
      rewrite (formatted_stdout_fn_cases U stdio_ret L format args w name Hw Hn).
      cbv zeta. unfold record_call. cbn [stdout_calls s_logger app_state w world_with].
      rewrite <- ?app_assoc. cbn [app].
      sign_cases; eexists; reflexivity.
Qed.

Lemma mu_log_default_sink_filters_witness :
  Simple.mu_log stdio_fake SimpleTest.user_fn MU_LOG_LEVEL_DEBUG "Hello"
    (world_with (Some addr_mu_log_stdout_fn) MU_LOG_LEVEL_INFO [] 0%nat) =
  (Ok tt, world_with (Some addr_mu_log_stdout_fn) MU_LOG_LEVEL_INFO [] 0%nat).
Proof.
  assert (R : in_level_range MU_LOG_LEVEL_DEBUG)
    by (unfold in_level_range, INT_MIN, MU_LOG_LEVEL_DEBUG; lia).
  assert (B : MU_LOG_LEVEL_DEBUG < MU_LOG_LEVEL_INFO)
    by (unfold MU_LOG_LEVEL_DEBUG, MU_LOG_LEVEL_INFO; lia).
  apply (proj1 (mu_log_default_sink_filters nat stdio_fake SimpleTest.user_fn
                  FormattedTest.user_fn MU_LOG_LEVEL_DEBUG MU_LOG_LEVEL_INFO
                  [] 0%nat R) B).
Defined.

Lemma skipn_length_app (A : Type) (l ws : list A) :
  skipn (List.length l) (l ++ ws) = ws.
Proof. induction l as [ | a l IH]; simpl; auto. Qed.

Lemma simple_mu_log_line (U : Type)
  (stdio_ret : stdio_log -> stdio_call -> Z)
  (user_s : nat -> mu_log_level_t -> string -> M U Z)
  (L t : mu_log_level_t) (name message : string) (out : stdio_log) (u : U) :
  (forall h c, 0 <= stdio_ret h c) ->
  mu_log_level_name L = Ok name ->
  fst (Simple.mu_log stdio_ret user_s L message
         (world_with (Some addr_mu_log_stdout_fn) t out u)) = Ok tt /\
  calls_since out
    (snd (Simple.mu_log stdio_ret user_s L message
            (world_with (Some addr_mu_log_stdout_fn) t out u))) =
  simple_line t L name message.
Proof.
  intros Hs Hn. set (w := world_with (Some addr_mu_log_stdout_fn) t out u).
  rewrite (simple_mu_log_installed U stdio_ret user_s L message w
             addr_mu_log_stdout_fn eq_refl).
  cbn [Simple.call_fn fst snd]. unfold simple_line, calls_since.
  destruct (Z.geb_spec L t) as [Hge | Hlt].
  - assert (Hw : fst (mu_log_will_log L w) = Ok true).
    { apply will_log_true_iff. split; [ discriminate | cbn; lia ]. }
    rewrite (simple_stdout_fn_cases U stdio_ret L message w name Hw Hn).
    cbv zeta. sign_cases;
      try (match goal with
           | E : stdio_ret ?h ?c < 0 |- _ => specialize (Hs h c); lia
           end).
    cbn [fst snd]. split; [ reflexivity | ].
    rewrite ?record_call_calls, <- ?app_assoc. cbn [app w world_with stdout_calls].
    now rewrite skipn_length_app.
  - assert (Hw : fst (mu_log_will_log L w) = Ok false).
    { apply will_log_false_iff. right. cbn. lia. }
    rewrite (simple_stdout_fn_gated U stdio_ret L message w Hw).
    cbn [fst snd w world_with stdout_calls]. split; [ reflexivity | ].
    rewrite <- (app_nil_r out) at 2. now rewrite skipn_length_app.
Qed.

(** X11: the level macros through the default sink.  With
    [mu_log_stdout_fn] installed at threshold [t] and a stream that does
    not fail, each of [MU_LOG_TRACE] to [MU_LOG_FATAL] returns, and it
    writes the line of its own level (its name, the separator, the
    message, the newline) when that level is at least [t], and nothing
    otherwise. *)
Theorem level_macros_write_lines (U : Type)
  (stdio_ret : stdio_log -> stdio_call -> Z)
  (user_s : nat -> mu_log_level_t -> string -> M U Z)
  (t : mu_log_level_t) (message : string) (out : stdio_log) (u : U) :
  (forall h c, 0 <= stdio_ret h c) ->
  (fst (SimpleMacros.MU_LOG_TRACE stdio_ret user_s message
          (world_with (Some addr_mu_log_stdout_fn) t out u)) = Ok tt /\
   calls_since out
     (snd (SimpleMacros.MU_LOG_TRACE stdio_ret user_s message
             (world_with (Some addr_mu_log_stdout_fn) t out u))) =
   simple_line t MU_LOG_LEVEL_TRACE "TRACE" message) /\
  (fst (SimpleMacros.MU_LOG_DEBUG stdio_ret user_s message
          (world_with (Some addr_mu_log_stdout_fn) t out u)) = Ok tt /\
   calls_since out
     (snd (SimpleMacros.MU_LOG_DEBUG stdio_ret user_s message
             (world_with (Some addr_mu_log_stdout_fn) t out u))) =
   simple_line t MU_LOG_LEVEL_DEBUG "DEBUG" message) /\
  (fst (SimpleMacros.MU_LOG_INFO stdio_ret user_s message
          (world_with (Some addr_mu_log_stdout_fn) t out u)) = Ok tt /\
   calls_since out
     (snd (SimpleMacros.MU_LOG_INFO stdio_ret user_s message
             (world_with (Some addr_mu_log_stdout_fn) t out u))) =
   simple_line t MU_LOG_LEVEL_INFO "INFO" message) /\
  (fst (SimpleMacros.MU_LOG_WARN stdio_ret user_s message
          (world_with (Some addr_mu_log_stdout_fn) t out u)) = Ok tt /\
   calls_since out
     (snd (SimpleMacros.MU_LOG_WARN stdio_ret user_s message
             (world_with (Some addr_mu_log_stdout_fn) t out u))) =
   simple_line t MU_LOG_LEVEL_WARN "WARN" message) /\
  (fst (SimpleMacros.MU_LOG_ERROR stdio_ret user_s message
          (world_with (Some addr_mu_log_stdout_fn) t out u)) = Ok tt /\
   calls_since out
     (snd (SimpleMacros.MU_LOG_ERROR stdio_ret user_s message
             (world_with (Some addr_mu_log_stdout_fn) t out u))) =
   simple_line t MU_LOG_LEVEL_ERROR "ERROR" message) /\
  (fst (SimpleMacros.MU_LOG_FATAL stdio_ret user_s message
          (world_with (Some addr_mu_log_stdout_fn) t out u)) = Ok tt /\
   calls_since out
     (snd (SimpleMacros.MU_LOG_FATAL stdio_ret user_s message
             (world_with (Some addr_mu_log_stdout_fn) t out u))) =
   simple_line t MU_LOG_LEVEL_FATAL "FATAL" message).
Proof.
  intros Hs.
  unfold SimpleMacros.MU_LOG_TRACE, SimpleMacros.MU_LOG_DEBUG,
    SimpleMacros.MU_LOG_INFO, SimpleMacros.MU_LOG_WARN,
    SimpleMacros.MU_LOG_ERROR, SimpleMacros.MU_LOG_FATAL.
  repeat (split; [ now apply simple_mu_log_line | ]).
  now apply simple_mu_log_line.
Qed.

Lemma level_macros_write_lines_witness :
  calls_since []
    (snd (SimpleMacros.MU_LOG_DEBUG stdio_chars SimpleTest.user_fn "Hello"
            (world_with (Some addr_mu_log_stdout_fn) MU_LOG_DEFAULT_LEVEL []
               0%nat))) = [] /\
  calls_since []
    (snd (SimpleMacros.MU_LOG_WARN stdio_chars SimpleTest.user_fn "Hello"
            (world_with (Some addr_mu_log_stdout_fn) MU_LOG_DEFAULT_LEVEL []
               0%nat))) =
  [Fputs "WARN"; Fputs ": "; Fputs "Hello"; Fputs newline].
Proof.
  pose proof (level_macros_write_lines nat stdio_chars SimpleTest.user_fn
                MU_LOG_DEFAULT_LEVEL "Hello" [] 0%nat stdio_chars_nonneg)
    as [_ [[_ Hdebug] [_ [[_ Hwarn] _]]]].
  split; [ exact Hdebug | exact Hwarn ].
Defined.

(* ********************************************************************** *)
(** ** The trampoline of the test suite, and the logger before a function
       is installed *)

(** X12: the trampoline [test_log_fn] of the test suite makes the
    unconditional dispatch filter.  With it installed at threshold [t],
    [mu_log] at level [L] returns, changes neither the logger state nor
    the stream history, and calls the fake print function once when
    [L >= t] and not at all otherwise, in both modes. *)
Theorem test_log_fn_counts (stdio_ret : stdio_log -> stdio_call -> Z)
  (L t : mu_log_level_t) (out : stdio_log) (count : nat) :
  (forall message : string,
     Simple.mu_log stdio_ret SimpleTest.user_fn L message
       (world_with (Some SimpleTest.addr_test_log_fn) t out count) =
     (Ok tt,
      world_with (Some SimpleTest.addr_test_log_fn) t out
        (if L >=? t then S count else count))) /\
  (forall (format : string) (args : list c_value),
     Formatted.mu_log stdio_ret FormattedTest.user_fn L format args
       (world_with (Some FormattedTest.addr_test_log_fn) t out count) =
     (Ok tt,
      world_with (Some FormattedTest.addr_test_log_fn) t out
        (if L >=? t then S count else count))).
Proof.
  split; intros.
  - unfold Simple.mu_log, bind, get_logger. cbn.
    destruct (L >=? t); reflexivity.
  - unfold Formatted.mu_log, bind, get_logger. cbn.
    destruct (L >=? t); reflexivity.
Qed.

Lemma simple_exec_op_not_installed (U : Type)
  (stdio_ret : stdio_log -> stdio_call -> Z)
  (user_s : nat -> mu_log_level_t -> string -> M U Z)
  (o : Simple.op) (t : mu_log_level_t) (u : U) :
  simple_op_installs o = false ->
  exists t' : mu_log_level_t,
    snd (Simple.exec_op stdio_ret user_s o (world_with NULL t [] u)) =
      world_with NULL t' [] u /\
    (simple_op_is_log o = true ->
     fst (Simple.exec_op stdio_ret user_s o (world_with NULL t [] u)) =
       Undefined).
Proof.
  intros Hi. destruct o as [fn | | t0 | | level | level | level message
                            | level message]; cbn [simple_op_is_log].
  - destruct fn; [ discriminate Hi | ]. exists t. split; [ reflexivity | discriminate ].
  - exists t. split; [ reflexivity | discriminate ].
  - exists t0. split; [ reflexivity | discriminate ].
  - exists t. split; [ reflexivity | discriminate ].
  - exists t. split; [ reflexivity | discriminate ].
  - exists t. split; [ | discriminate ].
    cbn [Simple.exec_op]. unfold bind, lift, ret.
    destruct (mu_log_level_name level); reflexivity.
  - exists t. split; intros; reflexivity.
  - exists t. split; [ reflexivity | discriminate ].
Qed.

Lemma simple_run_ops_not_installed (U : Type)
  (stdio_ret : stdio_log -> stdio_call -> Z)
  (user_s : nat -> mu_log_level_t -> string -> M U Z)
  (u : U) (ops : list Simple.op) :
  forallb (fun o => negb (simple_op_installs o)) ops = true ->
  forall t : mu_log_level_t,
    (exists t' : mu_log_level_t,
       snd (Simple.run_ops stdio_ret user_s ops (world_with NULL t [] u)) =
         world_with NULL t' [] u) /\
    (existsb simple_op_is_log ops = true ->
     fst (Simple.run_ops stdio_ret user_s ops (world_with NULL t [] u)) =
       Undefined).
Proof.
  induction ops as [ | o ops IH]; intros Hall t.
  - split; [ exists t; reflexivity | discriminate ].
  - cbn [forallb] in Hall. apply andb_true_iff in Hall.
    destruct Hall as [Ho Hops]. apply negb_true_iff in Ho.
    destruct (simple_exec_op_not_installed U stdio_ret user_s o t u Ho)
      as [t1 [Hw Hlog]].
    cbn [Simple.run_ops existsb]. unfold bind.
    destruct (Simple.exec_op stdio_ret user_s o (world_with NULL t [] u))
      as [[[] | ] w1] eqn:E; cbn [snd fst] in Hw, Hlog; subst w1.
    + destruct (IH Hops t1) as [Hend Hundef]. split; [ exact Hend | ].
      intros Hex. apply orb_true_iff in Hex. destruct Hex as [Hhead | Htail].
      * specialize (Hlog Hhead). discriminate Hlog.
      * now apply Hundef.
    + split; [ exists t1; reflexivity | reflexivity ].
Qed.

(** X13: before a function is installed the logger is silent.  From
    process start, a sequence of operations that never installs a
    function ends with no function installed, nothing written to the
    stream and the state of the program untouched; if the sequence calls
    [mu_log], the run is undefined (the call goes through the null
    pointer). *)
Theorem silent_until_installed (U : Type)
  (stdio_ret : stdio_log -> stdio_call -> Z)
  (user_s : nat -> mu_log_level_t -> string -> M U Z)
  (u : U) (ops : list Simple.op) :
  forallb (fun o => negb (simple_op_installs o)) ops = true ->
  log_fn (s_logger (snd (Simple.run_ops stdio_ret user_s ops (world_init u)))) =
    NULL /\
  stdout_calls (snd (Simple.run_ops stdio_ret user_s ops (world_init u))) = [] /\
  app_state (snd (Simple.run_ops stdio_ret user_s ops (world_init u))) = u /\
  (existsb simple_op_is_log ops = true ->
   fst (Simple.run_ops stdio_ret user_s ops (world_init u)) = Undefined).
Proof.
  intros Hall.
  destruct (simple_run_ops_not_installed U stdio_ret user_s u ops Hall
              MU_LOG_DEFAULT_LEVEL) as [[t' Hend] Hundef].
  change (world_with NULL MU_LOG_DEFAULT_LEVEL [] u) with (world_init u)
    in Hend, Hundef.
  rewrite Hend. repeat split. exact Hundef.
Qed.

Lemma silent_until_installed_witness :
  stdout_calls
    (snd (Simple.run_ops stdio_fake SimpleTest.user_fn
            [Simple.op_set_threshold MU_LOG_LEVEL_TRACE;
             Simple.op_stdout_fn MU_LOG_LEVEL_FATAL "x";
             Simple.op_log MU_LOG_LEVEL_FATAL "x"]
            (world_init 0%nat))) = [] /\
  fst (Simple.run_ops stdio_fake SimpleTest.user_fn
         [Simple.op_set_threshold MU_LOG_LEVEL_TRACE;
          Simple.op_stdout_fn MU_LOG_LEVEL_FATAL "x";
          Simple.op_log MU_LOG_LEVEL_FATAL "x"]
         (world_init 0%nat)) = Undefined.
Proof.
  pose proof (silent_until_installed nat stdio_fake SimpleTest.user_fn 0%nat
                [Simple.op_set_threshold MU_LOG_LEVEL_TRACE;
                 Simple.op_stdout_fn MU_LOG_LEVEL_FATAL "x";
                 Simple.op_log MU_LOG_LEVEL_FATAL "x"] eq_refl)
    as [_ [Hout [_ Hundef]]].
  split; [ exact Hout | exact (Hundef eq_refl) ].
Defined.
